(** * Z.AI client (zaai.py): request signing, identity extraction,
      request-body assembly and SSE stream aggregation.

    The development is a shallow embedding of the class [ZAIClient] of
    [src/bk/zaai.py].  Python values are modelled as the interpreter has
    them:

    - [str] is a sequence of Unicode code points ([list N]); [bytes] is a
      [list byte];
    - a raised exception is a value of [exn]; code that may raise lives in
      the error monad [exc], and [try] / [except] is an explicit handler;
    - a generator is the finite trace of what it yields together with the
      way it ended;
    - the library functions the client calls ([bytes.decode], [str.strip],
      [base64.urlsafe_b64decode], [json.loads], [hmac.new], [hashlib.sha256])
      are written out after CPython's implementation, so that every
      function of the client can be evaluated on concrete inputs.

    What cannot be written out without the Unicode character database or
    IEEE-754 arithmetic ([str.lower], [repr] of a string, the value and
    the [repr] of a float literal) is collected in the class [PyRuntime];
    the theorems hold for every instance.  Resource limits of the
    interpreter (recursion depth, memory) are not modelled.

    Embedded from the source: [__init__], [MODEL_MAPPING],
    [_extract_user_id_from_token], [_generate_signature],
    [_build_request_body], [_stream_request], [_non_stream_request] and
    [get_content_from_chunk] (module [ZAI]); [get_guest_token],
    [_get_token], [_build_headers] and [chat], with
    [urllib.parse.urlencode] (modules [Chat] and [Urllib]).  The results
    of [_generate_uuid], [time.time] and [datetime.now] are inputs. *)

From Stdlib Require Import ZArith NArith List String Ascii Bool Lia.
From Stdlib Require Import Strings.Byte.
From Stdlib Require Import DecimalString.
Import ListNotations.

Set Implicit Arguments.
Set Warnings "-register-all,-abstract-large-number".

(* ================================================================== *)
(** * Python runtime model *)
(* ================================================================== *)

Module Py.

Local Open Scope list_scope.
Local Open Scope N_scope.

(** ** Strings and bytes *)

(** A Python [str]: a sequence of code points. *)
Definition str := list N.

(** A Python [bytes] object. *)
Definition bytes := list byte.

(** An ASCII literal of the source as a [str]. *)
Definition u (s : string) : str := map Byte.to_N (list_byte_of_string s).

(** A literal written with apostrophes where the Python text has double
    quotes (code point 39 becomes 34). *)
Definition q (s : string) : str :=
  map (fun c => if N.eqb c 39 then 34 else c) (u s).

(** The byte with the value [n mod 256]. *)
Definition byte_of_N (n : N) : byte :=
  match Byte.of_N (n mod 256) with
  | Some b => b
  | None => x00
  end.

(** An ASCII literal as [bytes]. *)
Definition b (s : string) : bytes := list_byte_of_string s.

(** [q] for [bytes]. *)
Definition qb (s : string) : bytes := map byte_of_N (q s).

Fixpoint str_eqb (s t : str) : bool :=
  match s, t with
  | [], [] => true
  | c :: s', d :: t' => N.eqb c d && str_eqb s' t'
  | _, _ => false
  end.

(** ** Exceptions *)

Inductive exn : Type :=
| UnicodeDecodeError
| UnicodeEncodeError
| ValueError
| JSONDecodeError          (* a subclass of ValueError *)
| BinasciiError            (* binascii.Error, a subclass of ValueError *)
| AttributeError
| TypeError
| KeyError
| Exception_ (msg : str).  (* raise Exception(msg) *)

Inductive exc (A : Type) : Type :=
| Ok (a : A)
| Raise (e : exn).

Arguments Ok {A} a.
Arguments Raise {A} e.

Definition bind {A B} (m : exc A) (f : A -> exc B) : exc B :=
  match m with
  | Ok a => f a
  | Raise e => Raise e
  end.

Definition fmap {A B} (f : A -> B) (m : exc A) : exc B :=
  bind m (fun a => Ok (f a)).

(** [try: body except: handler] with a bare [except], which catches
    every exception. *)
Definition try_except {A} (body : exc A) (handler : exn -> exc A) : exc A :=
  match body with
  | Ok a => Ok a
  | Raise e => handler e
  end.

Declare Scope exc_scope.
Delimit Scope exc_scope with exc.
Notation "x <- m ;; k" := (bind m (fun x => k))
  (at level 61, m at next level, right associativity) : exc_scope.

(** [except UnicodeDecodeError:] catches exactly this class. *)
Definition is_UnicodeDecodeError (e : exn) : bool :=
  match e with
  | UnicodeDecodeError => true
  | _ => false
  end.

(** ** Codecs *)

(** One byte as a number. *)
Definition bv (x : byte) : N := Byte.to_N x.

Definition is_cont (x : byte) : bool :=
  N.leb 128 (bv x) && N.ltb (bv x) 192.

Definition cbits (x : byte) : N := bv x - 128.

(** The second byte of a three-byte sequence led by [b0]: a continuation
    byte, not below A0 after E0 (overlong) and not above 9F after ED
    (surrogates). *)
Definition ok2_of3 (b0 b1 : byte) : bool :=
  is_cont b1 &&
  (if N.eqb (bv b0) 224 then N.leb 160 (bv b1)
   else if N.eqb (bv b0) 237 then N.ltb (bv b1) 160
   else true).

(** The second byte of a four-byte sequence led by [b0]: a continuation
    byte, not below 90 after F0 (overlong) and not above 8F after F4
    (beyond U+10FFFF). *)
Definition ok2_of4 (b0 b1 : byte) : bool :=
  is_cont b1 &&
  (if N.eqb (bv b0) 240 then N.leb 144 (bv b1)
   else if N.eqb (bv b0) 244 then N.ltb (bv b1) 144
   else true).

(** [bytes.decode('utf-8')]: the strict UTF-8 decoder. *)
Fixpoint utf8_decode (bs : bytes) : exc str :=
  match bs with
  | [] => Ok []
  | b0 :: t0 =>
    if N.ltb (bv b0) 128 then fmap (cons (bv b0)) (utf8_decode t0)
    else if N.ltb (bv b0) 194 then Raise UnicodeDecodeError
    else if N.ltb (bv b0) 224 then
      match t0 with
      | b1 :: t1 =>
        if is_cont b1
        then fmap (cons ((bv b0 - 192) * 64 + cbits b1)) (utf8_decode t1)
        else Raise UnicodeDecodeError
      | [] => Raise UnicodeDecodeError
      end
    else if N.ltb (bv b0) 240 then
      match t0 with
      | b1 :: b2 :: t2 =>
        if ok2_of3 b0 b1 && is_cont b2
        then fmap (cons ((bv b0 - 224) * 4096 + cbits b1 * 64 + cbits b2))
                  (utf8_decode t2)
        else Raise UnicodeDecodeError
      | _ => Raise UnicodeDecodeError
      end
    else if N.ltb (bv b0) 245 then
      match t0 with
      | b1 :: b2 :: b3 :: t3 =>
        if ok2_of4 b0 b1 && is_cont b2 && is_cont b3
        then fmap (cons ((bv b0 - 240) * 262144 + cbits b1 * 4096
                         + cbits b2 * 64 + cbits b3))
                  (utf8_decode t3)
        else Raise UnicodeDecodeError
      | _ => Raise UnicodeDecodeError
      end
    else Raise UnicodeDecodeError
  end.

(** [bytes.decode('utf-8', errors='ignore')]: at an invalid start byte one
    byte is dropped; at an invalid continuation the bytes of the sequence
    read so far are dropped; a sequence cut short by the end of the data is
    dropped whole. *)
Fixpoint utf8_decode_ignore (bs : bytes) : str :=
  match bs with
  | [] => []
  | b0 :: t0 =>
    if N.ltb (bv b0) 128 then bv b0 :: utf8_decode_ignore t0
    else if N.ltb (bv b0) 194 then utf8_decode_ignore t0
    else if N.ltb (bv b0) 224 then
      match t0 with
      | b1 :: t1 =>
        if is_cont b1
        then ((bv b0 - 192) * 64 + cbits b1) :: utf8_decode_ignore t1
        else utf8_decode_ignore t0
      | [] => []
      end
    else if N.ltb (bv b0) 240 then
      match t0 with
      | b1 :: t1 =>
        if ok2_of3 b0 b1 then
          match t1 with
          | b2 :: t2 =>
            if is_cont b2
            then ((bv b0 - 224) * 4096 + cbits b1 * 64 + cbits b2)
                   :: utf8_decode_ignore t2
            else utf8_decode_ignore t1
          | [] => []
          end
        else utf8_decode_ignore t0
      | [] => []
      end
    else if N.ltb (bv b0) 245 then
      match t0 with
      | b1 :: t1 =>
        if ok2_of4 b0 b1 then
          match t1 with
          | b2 :: t2 =>
            if is_cont b2 then
              match t2 with
              | b3 :: t3 =>
                if is_cont b3
                then ((bv b0 - 240) * 262144 + cbits b1 * 4096
                      + cbits b2 * 64 + cbits b3)
                       :: utf8_decode_ignore t3
                else utf8_decode_ignore t2
              | [] => []
              end
            else utf8_decode_ignore t1
          | [] => []
          end
        else utf8_decode_ignore t0
      | [] => []
      end
    else utf8_decode_ignore t0
  end.

(** [bytes.decode('latin-1')]: one character per byte. *)
Definition latin1_decode (bs : bytes) : exc str := Ok (map bv bs).

(** [str.encode('utf-8')]: surrogate code points cannot be encoded. *)
Definition utf8_encode_cp (c : N) : exc bytes :=
  if N.ltb c 128 then Ok [byte_of_N c]
  else if N.ltb c 2048 then
    Ok [byte_of_N (192 + c / 64); byte_of_N (128 + c mod 64)]
  else if N.leb 55296 c && N.leb c 57343 then Raise UnicodeEncodeError
  else if N.ltb c 65536 then
    Ok [byte_of_N (224 + c / 4096); byte_of_N (128 + (c / 64) mod 64);
        byte_of_N (128 + c mod 64)]
  else if N.ltb c 1114112 then
    Ok [byte_of_N (240 + c / 262144); byte_of_N (128 + (c / 4096) mod 64);
        byte_of_N (128 + (c / 64) mod 64); byte_of_N (128 + c mod 64)]
  else Raise UnicodeEncodeError.

Fixpoint utf8_encode (s : str) : exc bytes :=
  match s with
  | [] => Ok []
  | c :: s' =>
    bind (utf8_encode_cp c) (fun bs =>
    bind (utf8_encode s') (fun rest => Ok (bs ++ rest)))
  end.

(** [str.encode('ascii')]. *)
Fixpoint ascii_encode (s : str) : exc bytes :=
  match s with
  | [] => Ok []
  | c :: s' =>
    if N.ltb c 128
    then fmap (cons (byte_of_N c)) (ascii_encode s')
    else Raise UnicodeEncodeError
  end.

(** ** String methods *)

(** [str.isspace] of one character, the set [str.strip()] removes. *)
Definition isspace (c : N) : bool :=
  (N.leb 9 c && N.leb c 13) || (N.leb 28 c && N.leb c 32)
  || N.eqb c 133 || N.eqb c 160 || N.eqb c 5760
  || (N.leb 8192 c && N.leb c 8202)
  || N.eqb c 8232 || N.eqb c 8233 || N.eqb c 8239 || N.eqb c 8287
  || N.eqb c 12288.

Fixpoint lstrip (s : str) : str :=
  match s with
  | c :: s' => if isspace c then lstrip s' else s
  | [] => []
  end.

Definition rstrip (s : str) : str := rev (lstrip (rev s)).

(** [s.strip()] *)
Definition strip (s : str) : str := rstrip (lstrip s).

(** [s.startswith(p)] *)
Fixpoint startswith (s p : str) : bool :=
  match p, s with
  | [], _ => true
  | d :: p', c :: s' => N.eqb c d && startswith s' p'
  | _ :: _, [] => false
  end.

(** [p in s] for strings. *)
Fixpoint contains (s p : str) : bool :=
  startswith s p ||
  match s with
  | [] => false
  | _ :: s' => contains s' p
  end.

(** [s in [a, b, ...]] *)
Definition str_in (s : str) (l : list str) : bool := existsb (str_eqb s) l.

(** [s.split(sep)] for a one-character separator: [split_go] carries the
    segment being read, reversed. *)
Fixpoint split_go (sep : N) (cur : str) (s : str) : list str :=
  match s with
  | [] => [rev cur]
  | c :: s' =>
    if N.eqb c sep then rev cur :: split_go sep [] s'
    else split_go sep (c :: cur) s'
  end.

Definition split (s : str) (sep : N) : list str := split_go sep [] s.

(** [c * n] for a one-character string. *)
Definition str_mul (c : N) (n : Z) : str := repeat c (Z.to_nat n).

(** The line terminator. *)
Definition newline : str := [10].

(** [str(n)] for an [int], within the interpreter's limit on the
    conversion (4300 digits by default): every integer [json.loads]
    returns and every timestamp in milliseconds is within it. *)
Definition str_of_int (z : Z) : str :=
  u (NilEmpty.string_of_int (Z.to_int z)).

(** [sep.join(l)] *)
Fixpoint join (sep : str) (l : list str) : str :=
  match l with
  | [] => []
  | [x] => x
  | x :: l' => x ++ sep ++ join sep l'
  end.

(** ** Objects *)

(** The values [json.loads] builds.  A [float] is kept as the literal it
    was read from; a [dict] keeps its keys in insertion order. *)
Inductive pyobj : Type :=
| PNone
| PBool (x : bool)
| PInt (z : Z)
| PFloat (lit : str)
| PStr (s : str)
| PList (l : list pyobj)
| PDict (d : list (str * pyobj)).

Definition dict := list (str * pyobj).

(** [d[k]] when present. *)
Fixpoint dict_lookup (d : dict) (k : str) : option pyobj :=
  match d with
  | [] => None
  | (k', v) :: d' => if str_eqb k k' then Some v else dict_lookup d' k
  end.

(** [k in d] *)
Definition dict_contains (d : dict) (k : str) : bool :=
  match dict_lookup d k with
  | Some _ => true
  | None => false
  end.

(** [d[k] = v]: an existing key keeps its place, a new one goes last. *)
Fixpoint dict_set (d : dict) (k : str) (v : pyobj) : dict :=
  match d with
  | [] => [(k, v)]
  | (k', v') :: d' =>
    if str_eqb k k' then (k', v) :: d' else (k', v') :: dict_set d' k v
  end.

(** [dict(pairs)] *)
Definition dict_of_pairs (pairs : list (str * pyobj)) : dict :=
  fold_left (fun d kv => dict_set d (fst kv) (snd kv)) pairs [].

(** [d.get(k, default)] on a [dict]. *)
Definition dict_get (d : dict) (k : str) (default : pyobj) : pyobj :=
  match dict_lookup d k with
  | Some v => v
  | None => default
  end.

(** [d[k]]: a missing key raises. *)
Definition dict_item (d : dict) (k : str) : exc pyobj :=
  match dict_lookup d k with
  | Some v => Ok v
  | None => Raise KeyError
  end.

(** [x.get(k, default)] on any object: only a [dict] has the method. *)
Definition py_get (x : pyobj) (k : str) (default : pyobj) : exc pyobj :=
  match x with
  | PDict d => Ok (dict_get d k default)
  | _ => Raise AttributeError
  end.

(** [x == s] for a string [s]. *)
Definition py_eq_str (x : pyobj) (s : str) : bool :=
  match x with
  | PStr t => str_eqb t s
  | _ => false
  end.

(** [acc + x] for a string accumulator: anything but a [str] on the right
    raises [TypeError]. *)
Definition str_add (acc : str) (x : pyobj) : exc str :=
  match x with
  | PStr t => Ok (acc ++ t)
  | _ => Raise TypeError
  end.

(** What the model takes from the interpreter without writing it out. *)
Class PyRuntime : Type := {
  (** [s.lower()], which follows the Unicode case mappings *)
  str_lower : str -> str;
  (** [repr(s)] of a [str], which follows [str.isprintable] *)
  str_repr : str -> str;
  (** [repr(float(lit))] *)
  float_repr : str -> str;
  (** [float(lit) == 0.0] *)
  float_is_zero : str -> bool
}.

Section Builtins.

Context {rt : PyRuntime}.

(** [bool(x)] *)
Definition truthy (x : pyobj) : bool :=
  match x with
  | PNone => false
  | PBool v => v
  | PInt z => negb (Z.eqb z 0)
  | PFloat lit => negb (float_is_zero lit)
  | PStr s => match s with [] => false | _ => true end
  | PList l => match l with [] => false | _ => true end
  | PDict d => match d with [] => false | _ => true end
  end.

(** [repr(x)] *)
Fixpoint py_repr (x : pyobj) : str :=
  match x with
  | PNone => u "None"
  | PBool true => u "True"
  | PBool false => u "False"
  | PInt z => str_of_int z
  | PFloat lit => float_repr lit
  | PStr s => str_repr s
  | PList l => u "[" ++ join (u ", ") (map py_repr l) ++ u "]"
  | PDict d =>
    u "{" ++ join (u ", ")
                  (map (fun kv => match kv with
                                  | (k, v) => str_repr k ++ u ": " ++ py_repr v
                                  end) d)
          ++ u "}"
  end.

(** [str(x)] *)
Definition py_str (x : pyobj) : str :=
  match x with
  | PStr s => s
  | _ => py_repr x
  end.

End Builtins.

End Py.

(* ================================================================== *)
(** * hashlib.sha256 and hmac *)
(* ================================================================== *)

Module Sha256.

Import Py.
Local Open Scope list_scope.
Local Open Scope N_scope.

(** 32-bit words are numbers below [2^32]. *)
Definition w32 (x : N) : N := x mod 4294967296.

Definition add32 (x y : N) : N := w32 (x + y).

Definition rotr (n x : N) : N :=
  N.lor (N.shiftr x n) (w32 (N.shiftl x (32 - n))).

Definition not32 (x : N) : N := N.lxor x 4294967295.

Definition Ch (x y z : N) : N :=
  N.lxor (N.land x y) (N.land (not32 x) z).

Definition Maj (x y z : N) : N :=
  N.lxor (N.lxor (N.land x y) (N.land x z)) (N.land y z).

Definition Sigma0 (x : N) : N :=
  N.lxor (N.lxor (rotr 2 x) (rotr 13 x)) (rotr 22 x).

Definition Sigma1 (x : N) : N :=
  N.lxor (N.lxor (rotr 6 x) (rotr 11 x)) (rotr 25 x).

Definition sigma0 (x : N) : N :=
  N.lxor (N.lxor (rotr 7 x) (rotr 18 x)) (N.shiftr x 3).

Definition sigma1 (x : N) : N :=
  N.lxor (N.lxor (rotr 17 x) (rotr 19 x)) (N.shiftr x 10).

(** The constants of the standard are not tabulated but computed from
    their definition: the first 32 bits of the fractional parts of the
    cube roots (for [K]) and of the square roots (for [H0]) of the
    first primes. *)

Definition is_prime (n : nat) : bool :=
  forallb (fun d => negb (Nat.eqb (n mod d) 0)) (seq 2 (n - 2)).

(** The first [n] primes; the sixty-fourth is 311. *)
Definition primes (n : nat) : list N :=
  map N.of_nat (firstn n (filter is_prime (seq 2 310))).

(** The integer cube root, bit by bit from bit [k] down. *)
Fixpoint icbrt_bits (k : nat) (x r : N) : N :=
  let try_bit (i : nat) :=
    let r' := r + N.shiftl 1 (N.of_nat i) in
    if N.leb (r' * r' * r') x then r' else r in
  match k with
  | O => try_bit O
  | S k' => icbrt_bits k' x (try_bit k)
  end.

Definition icbrt (x : N) : N := icbrt_bits 40 x 0.

Definition K : list N :=
  Eval vm_compute in
    map (fun p => w32 (icbrt (p * N.shiftl 1 96))) (primes 64).

Definition H0 : list N :=
  Eval vm_compute in
    map (fun p => w32 (N.sqrt (p * N.shiftl 1 64))) (primes 8).

(** The eight working variables. *)
Record regs := Regs { ra : N; rb : N; rc : N; rd : N;
                      re : N; rf : N; rg : N; rh : N }.

Definition regs_of (h : list N) : regs :=
  Regs (nth 0 h 0) (nth 1 h 0) (nth 2 h 0) (nth 3 h 0)
       (nth 4 h 0) (nth 5 h 0) (nth 6 h 0) (nth 7 h 0).

Definition list_of (r : regs) : list N :=
  [ra r; rb r; rc r; rd r; re r; rf r; rg r; rh r].

(** One round, with round constant [k] and schedule word [w]. *)
Definition round (r : regs) (k w : N) : regs :=
  let T1 := add32 (add32 (add32 (add32 (rh r) (Sigma1 (re r)))
                                (Ch (re r) (rf r) (rg r))) k) w in
  let T2 := add32 (Sigma0 (ra r)) (Maj (ra r) (rb r) (rc r)) in
  Regs (add32 T1 T2) (ra r) (rb r) (rc r) (add32 (rd r) T1)
       (re r) (rf r) (rg r).

(** The message schedule is kept as a window of the sixteen latest words:
    [W t = sigma1 (W (t-2)) + W (t-7) + sigma0 (W (t-15)) + W (t-16)]. *)
Definition next_window (w : list N) : list N :=
  tl w ++ [add32 (add32 (add32 (sigma1 (nth 14 w 0)) (nth 9 w 0))
                        (sigma0 (nth 1 w 0))) (nth 0 w 0)].

Fixpoint rounds (ks : list N) (w : list N) (r : regs) : regs :=
  match ks with
  | [] => r
  | k :: ks' => rounds ks' (next_window w) (round r k (hd 0 w))
  end.

(** Big-endian words of a block. *)
Fixpoint words_of (bs : bytes) : list N :=
  match bs with
  | b0 :: b1 :: b2 :: b3 :: t =>
    (bv b0 * 16777216 + bv b1 * 65536 + bv b2 * 256 + bv b3) :: words_of t
  | _ => []
  end.

Definition compress (h : list N) (block : bytes) : list N :=
  map (fun p => add32 (fst p) (snd p))
      (combine h (list_of (rounds K (words_of block) (regs_of h)))).

Fixpoint blocks (n : nat) (h : list N) (m : bytes) : list N :=
  match n with
  | O => h
  | S n' => blocks n' (compress h (firstn 64 m)) (skipn 64 m)
  end.

Definition be_bytes (k : nat) (x : N) : bytes :=
  map (fun i => byte_of_N (N.shiftr x (8 * N.of_nat i))) (rev (seq 0 k)).

(** The message, the bit 1, zeros up to 56 modulo 64, and the length in
    bits on eight bytes. *)
Definition pad (m : bytes) : bytes :=
  let l := N.of_nat (List.length m) in
  m ++ [x80] ++ repeat x00 (N.to_nat ((119 - l mod 64) mod 64))
    ++ be_bytes 8 (8 * l).

(** [hashlib.sha256(m).digest()] *)
Definition sha256 (m : bytes) : bytes :=
  let p := pad m in
  flat_map (be_bytes 4) (blocks (List.length p / 64)%nat H0 p).

Definition hex_digit (n : N) : N := if N.ltb n 10 then 48 + n else 87 + n.

(** [.hexdigest()]: lower-case hexadecimal. *)
Definition hex (d : bytes) : str :=
  flat_map (fun x => [hex_digit (bv x / 16); hex_digit (bv x mod 16)]) d.

Definition xor_byte (c : N) (x : byte) : byte := byte_of_N (N.lxor c (bv x)).

(** [hmac.new(key, msg, hashlib.sha256).digest()] (RFC 2104, block size
    64): a key longer than a block is hashed first. *)
Definition hmac_new (key msg : bytes) : bytes :=
  let key' := if Nat.ltb 64 (List.length key) then sha256 key else key in
  let k := key' ++ repeat x00 (64 - List.length key')%nat in
  sha256 (map (xor_byte 0x5c) k ++ sha256 (map (xor_byte 0x36) k ++ msg)).

(** [hmac.new(key, msg, hashlib.sha256).hexdigest()] *)
Definition hmac_hexdigest (key msg : bytes) : str := hex (hmac_new key msg).

End Sha256.

(* ================================================================== *)
(** * base64.urlsafe_b64decode *)
(* ================================================================== *)

Module Base64.

Import Py.
Local Open Scope list_scope.
Local Open Scope N_scope.

(** [binascii]'s table: the value of a character of the standard
    alphabet. *)
Definition table_a2b (c : N) : option N :=
  if N.leb 65 c && N.leb c 90 then Some (c - 65)
  else if N.leb 97 c && N.leb c 122 then Some (c - 71)
  else if N.leb 48 c && N.leb c 57 then Some (c + 4)
  else if N.eqb c 43 then Some 62
  else if N.eqb c 47 then Some 63
  else None.

(** The loop of [binascii.a2b_base64] without [strict_mode].  [quad_pos]
    is the position in the current group of four, [leftchar] the bits not
    yet written and [pads] the padding characters seen since the last
    data character.  A character outside the alphabet is passed over; a
    pad that completes a group ends the decoding; at the end of the input
    an unfinished group is an error. *)
Fixpoint a2b_loop (s : bytes) (quad_pos leftchar pads : N) : exc bytes :=
  match s with
  | [] => if N.eqb quad_pos 0 then Ok [] else Raise BinasciiError
  | c :: s' =>
    if N.eqb (bv c) 61 then
      if N.leb 2 quad_pos then
        if N.leb 4 (quad_pos + (pads + 1)) then Ok []
        else a2b_loop s' quad_pos leftchar (pads + 1)
      else a2b_loop s' quad_pos leftchar pads
    else
      match table_a2b (bv c) with
      | None => a2b_loop s' quad_pos leftchar pads
      | Some v =>
        if N.eqb quad_pos 0 then a2b_loop s' 1 v 0
        else if N.eqb quad_pos 1 then
          fmap (cons (byte_of_N (N.lor (N.shiftl leftchar 2) (N.shiftr v 4))))
               (a2b_loop s' 2 (N.land v 15) 0)
        else if N.eqb quad_pos 2 then
          fmap (cons (byte_of_N (N.lor (N.shiftl leftchar 4) (N.shiftr v 2))))
               (a2b_loop s' 3 (N.land v 3) 0)
        else
          fmap (cons (byte_of_N (N.lor (N.shiftl leftchar 6) v)))
               (a2b_loop s' 0 0 0)
      end
  end.

Definition a2b_base64 (s : bytes) : exc bytes := a2b_loop s 0 0 0.

(** [bytes.translate] with the table that maps [-] to [+] and [_] to [/]. *)
Definition urlsafe_translate (x : byte) : byte :=
  if N.eqb (bv x) 45 then byte_of_N 43
  else if N.eqb (bv x) 95 then byte_of_N 47
  else x.

(** [base64.urlsafe_b64decode(s)] for a [str]: the string is encoded as
    ASCII ([ValueError] when it cannot be), translated to the standard
    alphabet and decoded without validation. *)
Definition urlsafe_b64decode (s : str) : exc bytes :=
  match ascii_encode s with
  | Ok bs => a2b_base64 (map urlsafe_translate bs)
  | Raise _ => Raise ValueError
  end.

End Base64.

(* ================================================================== *)
(** * json.loads *)
(* ================================================================== *)

Module Json.

Import Py.
Local Open Scope list_scope.
Local Open Scope N_scope.

(** The decoder reads the text in two passes that together accept what
    CPython's scanner accepts: [lex] cuts the text into tokens (skipping
    the white space allowed between them), [parse] runs the tokens
    through a stack of open containers.  Every rejection of the decoder
    is an exception here as well. *)

Inductive token : Type :=
| TLBrace | TRBrace | TLBracket | TRBracket | TColon | TComma
| TString (s : str)
| TAtom (v : pyobj).

(** The white space of the grammar: space, tab, line feed, carriage
    return. *)
Definition is_ws (c : N) : bool :=
  N.eqb c 32 || N.eqb c 9 || N.eqb c 10 || N.eqb c 13.

Definition is_digit (c : N) : bool := N.leb 48 c && N.leb c 57.

Definition hex_value (c : N) : option N :=
  if is_digit c then Some (c - 48)
  else if N.leb 97 c && N.leb c 102 then Some (c - 87)
  else if N.leb 65 c && N.leb c 70 then Some (c - 55)
  else None.

(** The four hexadecimal digits after a backslash and [u]. *)
Definition hex4 (s : str) : option N :=
  match s with
  | c1 :: c2 :: c3 :: c4 :: _ =>
    match hex_value c1, hex_value c2, hex_value c3, hex_value c4 with
    | Some v1, Some v2, Some v3, Some v4 =>
      Some (v1 * 4096 + v2 * 256 + v3 * 16 + v4)
    | _, _, _, _ => None
    end
  | _ => None
  end.

(** The one-character escapes. *)
Definition simple_escape (c : N) : option N :=
  if N.eqb c 34 then Some 34          (* quote *)
  else if N.eqb c 92 then Some 92     (* backslash *)
  else if N.eqb c 47 then Some 47     (* slash *)
  else if N.eqb c 98 then Some 8      (* b *)
  else if N.eqb c 102 then Some 12    (* f *)
  else if N.eqb c 110 then Some 10    (* n *)
  else if N.eqb c 114 then Some 13    (* r *)
  else if N.eqb c 116 then Some 9     (* t *)
  else None.

(** [scanstring] in strict mode, from the character after the opening
    quote.  [skip] counts characters already read as part of an escape,
    [n] the characters consumed.  Each character of the result is paired
    with whether a [\u] escape produced it. *)
Fixpoint scanstring_go (skip : nat) (s : str) (acc : list (N * bool))
         (n : nat) : exc (list (N * bool) * nat) :=
  match s with
  | [] => Raise JSONDecodeError
  | c :: s' =>
    match skip with
    | S k => scanstring_go k s' acc (S n)
    | O =>
      if N.eqb c 34 then Ok (rev acc, S n)
      else if N.eqb c 92 then
        match s' with
        | [] => Raise JSONDecodeError
        | e :: s'' =>
          if N.eqb e 117 then
            match hex4 s'' with
            | Some v => scanstring_go 5 s' ((v, true) :: acc) (S n)
            | None => Raise JSONDecodeError
            end
          else
            match simple_escape e with
            | Some v => scanstring_go 1 s' ((v, false) :: acc) (S n)
            | None => Raise JSONDecodeError
            end
        end
      else if N.ltb c 32 then Raise JSONDecodeError
      else scanstring_go 0 s' ((c, false) :: acc) (S n)
    end
  end.

(** An escaped high surrogate followed by an escaped low surrogate is one
    character. *)
Fixpoint join_surrogates (l : list (N * bool)) : str :=
  match l with
  | [] => []
  | (h, esc) :: l' =>
    match l' with
    | (lo, true) :: l'' =>
      if esc && N.leb 55296 h && N.leb h 56319
             && N.leb 56320 lo && N.leb lo 57343
      then match join_surrogates l' with
           | _ :: r => (65536 + (h - 55296) * 1024 + (lo - 56320)) :: r
           | [] => []
           end
      else h :: join_surrogates l'
    | _ => h :: join_surrogates l'
    end
  end.

Definition scanstring (s : str) : exc (str * nat) :=
  match scanstring_go 0 s [] 0 with
  | Ok (cs, n) => Ok (join_surrogates cs, n)
  | Raise e => Raise e
  end.

(** The digits at the front of [s]. *)
Fixpoint digits (s : str) : str :=
  match s with
  | c :: s' => if is_digit c then c :: digits s' else []
  | [] => []
  end.

(** The value of a string of digits. *)
Definition int_of_digits (ds : str) : Z :=
  fold_left (fun a c => (10 * a + Z.of_N (c - 48))%Z) ds 0%Z.

(** [int] refuses a literal of more than 4300 digits
    ([sys.int_info.default_max_str_digits]). *)
Definition int_max_str_digits : nat := 4300.

(** The number at the front of [s], if any: an optional minus sign; a
    zero, or a non-zero digit and further digits; optionally a point and
    at least one digit; optionally [e] or [E], an optional sign and at
    least one digit.  The result is the value and the number of
    characters read. *)
Definition match_number (s : str) : option (exc pyobj * nat) :=
  let sign := match s with 45 :: _ => [45] | _ => [] end in
  let s1 := skipn (List.length sign) s in
  match s1 with
  | [] => None
  | c :: r =>
    if is_digit c then
      let int_part := if N.eqb c 48 then [c] else c :: digits r in
      let s2 := skipn (List.length int_part) s1 in
      let frac :=
        match s2 with
        | 46 :: r2 => match digits r2 with [] => [] | ds => 46 :: ds end
        | _ => []
        end in
      let s3 := skipn (List.length frac) s2 in
      let exp :=
        match s3 with
        | e :: r3 =>
          if N.eqb e 101 || N.eqb e 69 then
            match r3 with
            | sg :: r4 =>
              if N.eqb sg 43 || N.eqb sg 45 then
                match digits r4 with [] => [] | ds => e :: sg :: ds end
              else
                match digits r3 with [] => [] | ds => e :: ds end
            | [] => []
            end
          else []
        | [] => []
        end in
      let lexeme := sign ++ int_part ++ frac ++ exp in
      Some (match frac, exp with
            | [], [] =>
              if Nat.ltb int_max_str_digits (List.length int_part)
              then Raise ValueError
              else Ok (PInt (match sign with
                             | [] => int_of_digits int_part
                             | _ => - int_of_digits int_part
                             end)%Z)
            | _, _ => Ok (PFloat lexeme)
            end, List.length lexeme)
    else None
  end.

(** The tokens of [s]; [skip] counts characters already read as part of
    the previous token. *)
Fixpoint lex (skip : nat) (s : str) : exc (list token) :=
  match s with
  | [] => Ok []
  | c :: s' =>
    match skip with
    | S k => lex k s'
    | O =>
      if is_ws c then lex 0 s'
      else if N.eqb c 123 then fmap (cons TLBrace) (lex 0 s')
      else if N.eqb c 125 then fmap (cons TRBrace) (lex 0 s')
      else if N.eqb c 91 then fmap (cons TLBracket) (lex 0 s')
      else if N.eqb c 93 then fmap (cons TRBracket) (lex 0 s')
      else if N.eqb c 58 then fmap (cons TColon) (lex 0 s')
      else if N.eqb c 44 then fmap (cons TComma) (lex 0 s')
      else if N.eqb c 34 then
        match scanstring s' with
        | Ok (str, n) => fmap (cons (TString str)) (lex n s')
        | Raise e => Raise e
        end
      else if startswith s (u "null") then
        fmap (cons (TAtom PNone)) (lex 3 s')
      else if startswith s (u "true") then
        fmap (cons (TAtom (PBool true))) (lex 3 s')
      else if startswith s (u "false") then
        fmap (cons (TAtom (PBool false))) (lex 4 s')
      else if startswith s (u "NaN") then
        fmap (cons (TAtom (PFloat (u "NaN")))) (lex 2 s')
      else if startswith s (u "Infinity") then
        fmap (cons (TAtom (PFloat (u "Infinity")))) (lex 7 s')
      else if startswith s (u "-Infinity") then
        fmap (cons (TAtom (PFloat (u "-Infinity")))) (lex 8 s')
      else
        match match_number s with
        | Some (Ok v, n) => fmap (cons (TAtom v)) (lex (Nat.pred n) s')
        | Some (Raise e, _) => Raise e
        | None => Raise JSONDecodeError
        end
    end
  end.

(** An open container: a list with its items so far, a dict with its
    pairs so far, or a dict whose next key has been read (all reversed). *)
Inductive frame : Type :=
| FList (items : list pyobj)
| FDict (pairs : list (str * pyobj))
| FDictKey (pairs : list (str * pyobj)) (key : str).

(** What the grammar allows next. *)
Inductive expect : Type :=
| EValue             (* a value *)
| EValueOrClose      (* after [: a value or ] *)
| EKeyOrClose        (* after {: a key or } *)
| EKey               (* after a comma in a dict: a key *)
| EColon             (* after a key *)
| ECommaOrClose      (* after a value in a container *)
| EDone (v : pyobj). (* the document is complete *)

Definition pstate : Type := (list frame * expect)%type.

(** A complete value goes to the innermost open container. *)
Definition deliver (stack : list frame) (v : pyobj) : exc pstate :=
  match stack with
  | [] => Ok ([], EDone v)
  | FList items :: st => Ok (FList (v :: items) :: st, ECommaOrClose)
  | FDictKey pairs k :: st => Ok (FDict ((k, v) :: pairs) :: st, ECommaOrClose)
  | FDict _ :: _ => Raise JSONDecodeError
  end.

Definition value_start (stack : list frame) (t : token) : exc pstate :=
  match t with
  | TAtom v => deliver stack v
  | TString s => deliver stack (PStr s)
  | TLBracket => Ok (FList [] :: stack, EValueOrClose)
  | TLBrace => Ok (FDict [] :: stack, EKeyOrClose)
  | _ => Raise JSONDecodeError
  end.

Definition key_start (stack : list frame) (t : token) : exc pstate :=
  match t, stack with
  | TString k, FDict pairs :: st => Ok (FDictKey pairs k :: st, EColon)
  | _, _ => Raise JSONDecodeError
  end.

Definition close (stack : list frame) (t : token) : exc pstate :=
  match t, stack with
  | TRBracket, FList items :: st => deliver st (PList (rev items))
  | TRBrace, FDict pairs :: st =>
    deliver st (PDict (dict_of_pairs (rev pairs)))
  | _, _ => Raise JSONDecodeError
  end.

Definition step (ps : pstate) (t : token) : exc pstate :=
  let (stack, e) := ps in
  match e with
  | EValue => value_start stack t
  | EValueOrClose =>
    match t with
    | TRBracket => close stack t
    | _ => value_start stack t
    end
  | EKeyOrClose =>
    match t with
    | TRBrace => close stack t
    | _ => key_start stack t
    end
  | EKey => key_start stack t
  | EColon =>
    match t with
    | TColon => Ok (stack, EValue)
    | _ => Raise JSONDecodeError
    end
  | ECommaOrClose =>
    match t, stack with
    | TComma, FList _ :: _ => Ok (stack, EValue)
    | TComma, FDict _ :: _ => Ok (stack, EKey)
    | _, _ => close stack t
    end
  | EDone _ => Raise JSONDecodeError
  end.

Fixpoint parse (ts : list token) (ps : pstate) : exc pyobj :=
  match ts with
  | [] =>
    match ps with
    | (_, EDone v) => Ok v
    | _ => Raise JSONDecodeError
    end
  | t :: ts' =>
    match step ps t with
    | Ok ps' => parse ts' ps'
    | Raise e => Raise e
    end
  end.

(** [json.loads(s)] for a [str]: a leading byte-order mark is refused. *)
Definition loads (s : str) : exc pyobj :=
  if startswith s [65279] then Raise JSONDecodeError
  else
    match lex 0 s with
    | Ok ts => parse ts ([], EValue)
    | Raise e => Raise e
    end.

End Json.

(* ================================================================== *)
(** * The client: class ZAIClient *)
(* ================================================================== *)

Module ZAI.

Import Py.
Local Open Scope list_scope.
Local Open Scope exc_scope.

(** The attributes [__init__] sets. *)
Record ZAIClient : Type := {
  base_url : str;
  api_url : str;
  auth_url : str;
  token : option str;
  anonymous : bool;
  signing_secret : str
}.

Definition __init__ (token : option str) (anonymous : bool) : ZAIClient :=
  let base_url := u "https://chat.z.ai" in
  {| base_url := base_url;
     api_url := base_url ++ u "/api/chat/completions";
     auth_url := base_url ++ u "/api/v1/auths/";
     token := token;
     anonymous := anonymous;
     signing_secret := u "junjie" |}.

(** The class attribute [MODEL_MAPPING]. *)
Definition MODEL_MAPPING : list (str * str) :=
  [ (u "GLM-4.5", u "0727-360B-API");
    (u "GLM-4.5-Thinking", u "0727-360B-API");
    (u "GLM-4.5-Search", u "0727-360B-API");
    (u "GLM-4.5-Air", u "0727-106B-API");
    (u "GLM-4.6", u "GLM-4-6-API-V1");
    (u "GLM-4.6-Thinking", u "GLM-4-6-API-V1");
    (u "GLM-4.6-Search", u "GLM-4-6-API-V1") ].

(** [MODEL_MAPPING.get(model, default)] *)
Fixpoint mapping_get (m : list (str * str)) (model default : str) : str :=
  match m with
  | [] => default
  | (k, v) :: m' => if str_eqb model k then v else mapping_get m' model default
  end.

(** ** Identity extraction *)

Section Identity.

Context {rt : PyRuntime}.

(** The loop [for key in ("id", "user_id", "uid", "sub")] of
    [_extract_user_id_from_token] and the [return "guest"] after it. *)
Fixpoint claim_loop (payload : pyobj) (keys : list str) : exc str :=
  match keys with
  | [] => Ok (u "guest")
  | key :: rest =>
    val <- py_get payload key PNone ;;
    if truthy val then Ok (py_str val) else claim_loop payload rest
  end.

(** The body of the [try] of [_extract_user_id_from_token]. *)
Definition extract_body (token : str) : exc str :=
  let parts := split token 46 in
  if Nat.ltb (List.length parts) 2 then Ok (u "guest")
  else
    let payload_raw := nth 1 parts [] in
    let padding :=
      str_mul 61 ((- Z.of_nat (List.length payload_raw)) mod 4) in
    payload_bytes <- Base64.urlsafe_b64decode (payload_raw ++ padding) ;;
    payload <- Json.loads (utf8_decode_ignore payload_bytes) ;;
    claim_loop payload [u "id"; u "user_id"; u "uid"; u "sub"].

Definition _extract_user_id_from_token (self : ZAIClient) (token : str)
  : exc str :=
  try_except (extract_body token) (fun _ => Ok (u "guest")).

End Identity.

(** ** Signature *)

Definition _generate_signature (self : ZAIClient)
           (message_text request_id : str) (timestamp_ms : Z)
           (user_id : str) : exc str :=
  let window_index := (timestamp_ms / (5 * 60 * 1000))%Z in
  root_key <- utf8_encode (signing_secret self) ;;
  window_bytes <- utf8_encode (str_of_int window_index) ;;
  let derived_hex := Sha256.hmac_hexdigest root_key window_bytes in
  let canonical_string :=
    u "requestId," ++ request_id ++ u ","
    ++ u "timestamp," ++ str_of_int timestamp_ms ++ u ","
    ++ u "user_id," ++ user_id ++ u "|" ++ message_text ++ u "|"
    ++ str_of_int timestamp_ms in
  derived_key <- utf8_encode derived_hex ;;
  canonical_bytes <- utf8_encode canonical_string ;;
  Ok (Sha256.hmac_hexdigest derived_key canonical_bytes).

(** ** Request body *)

(** What [_build_request_body] reads from its environment: the four
    [datetime.now().strftime(...)] results and the fresh UUID. *)
Record BodyEnv : Type := {
  current_datetime : str;
  current_date : str;
  current_time : str;
  current_weekday : str;
  fresh_uuid : str
}.

(** [body["params"][k] = v] *)
Definition set_param (body : dict) (k : str) (v : pyobj) : exc dict :=
  params <- dict_item body (u "params") ;;
  match params with
  | PDict pd => Ok (dict_set body (u "params") (PDict (dict_set pd k v)))
  | _ => Raise TypeError
  end.

Section Body.

Context {rt : PyRuntime}.

Definition is_thinking_model (model : str) : bool :=
  contains (str_lower model) (u "thinking").

Definition is_search_model (model : str) : bool :=
  contains (str_lower model) (u "search").

Definition _build_request_body (self : ZAIClient) (env : BodyEnv)
           (messages : pyobj) (model chat_id : str) (kwargs : dict)
  : exc pyobj :=
  let upstream_model_id :=
    mapping_get MODEL_MAPPING model (u "0727-360B-API") in
  let is_thinking := is_thinking_model model in
  let is_search := is_search_model model in
  let mcp_servers :=
    if is_search && contains model (u "4.5")
    then [PStr (u "deep-web-search")] else [] in
  let body : dict :=
    [ (u "stream", dict_get kwargs (u "stream") (PBool true));
      (u "model", PStr upstream_model_id);
      (u "messages", messages);
      (u "params", PDict []);
      (u "features",
       PDict [ (u "image_generation", PBool false);
               (u "web_search", PBool is_search);
               (u "auto_web_search", PBool is_search);
               (u "preview_mode", PBool false);
               (u "flags", PList []);
               (u "features", PList []);
               (u "enable_thinking", PBool is_thinking) ]);
      (u "background_tasks",
       PDict [ (u "title_generation", PBool false);
               (u "tags_generation", PBool false) ]);
      (u "mcp_servers", PList mcp_servers);
      (u "variables",
       PDict [ (u "{{USER_NAME}}", PStr (u "Guest"));
               (u "{{USER_LOCATION}}", PStr (u "Unknown"));
               (u "{{CURRENT_DATETIME}}", PStr (current_datetime env));
               (u "{{CURRENT_DATE}}", PStr (current_date env));
               (u "{{CURRENT_TIME}}", PStr (current_time env));
               (u "{{CURRENT_WEEKDAY}}", PStr (current_weekday env));
               (u "{{CURRENT_TIMEZONE}}", PStr (u "Asia/Shanghai"));
               (u "{{USER_LANGUAGE}}", PStr (u "zh-CN")) ]);
      (u "model_item",
       PDict [ (u "id", PStr upstream_model_id);
               (u "name", PStr model);
               (u "owned_by", PStr (u "z.ai")) ]);
      (u "chat_id", PStr chat_id);
      (u "id", PStr (fresh_uuid env)) ] in
  body1 <- (if dict_contains kwargs (u "temperature")
            then v <- dict_item kwargs (u "temperature") ;;
                 set_param body (u "temperature") v
            else Ok body) ;;
  body2 <- (if dict_contains kwargs (u "max_tokens")
            then v <- dict_item kwargs (u "max_tokens") ;;
                 set_param body1 (u "max_tokens") v
            else Ok body1) ;;
  body3 <- (if dict_contains kwargs (u "tools") && negb is_thinking
            then v <- dict_item kwargs (u "tools") ;;
                 Ok (dict_set body2 (u "tools") v)
            else Ok body2) ;;
  Ok (PDict body3).

End Body.

(** ** Streaming *)

(** A [requests] response as the client reads it. *)
Record Response : Type := {
  status_code : Z;
  iter_lines : list bytes   (* response.iter_lines(decode_unicode=False) *)
}.

(** A generator run to its end: what it yielded, and the exception that
    ended it, if one did. *)
Record gen (A : Type) : Type := Gen {
  yields : list A;
  raised : option exn
}.

Arguments Gen {A} yields raised.

(** One iteration of the loop of [_stream_request]: the units it yields. *)
Definition decode_line (line : bytes) : exc (list str) :=
  match line with
  | [] => Ok []
  | _ =>
    match utf8_decode line with
    | Ok decoded_line => Ok [decoded_line ++ newline]
    | Raise e =>
      if is_UnicodeDecodeError e then
        match latin1_decode line with
        | Ok decoded_line => Ok [decoded_line ++ newline]
        | Raise _ => Ok []
        end
      else Raise e
    end
  end.

(** The loop [for line in response.iter_lines(...)]. *)
Fixpoint stream_loop (lines : list bytes) : gen str :=
  match lines with
  | [] => Gen [] None
  | line :: rest =>
    match decode_line line with
    | Ok units =>
      let g := stream_loop rest in Gen (units ++ yields g) (raised g)
    | Raise e => Gen [] (Some e)
    end
  end.

(** The message of the exception for a status other than 200. *)
Definition request_failed (status : Z) : exn :=
  Exception_ ([35831; 27714; 22833; 36133; 58; 32]%N ++ str_of_int status).

Section Transport.

(** [requests.post(url, headers=..., json=..., stream=True, timeout=60)] *)
Variable requests_post : str -> dict -> dict -> exc Response.

Definition _stream_request (self : ZAIClient) (url : str)
           (headers body : dict) : gen str :=
  match requests_post url headers body with
  | Raise e => Gen [] (Some e)
  | Ok response =>
    if negb (Z.eqb (status_code response) 200)
    then Gen [] (Some (request_failed (status_code response)))
    else stream_loop (iter_lines response)
  end.

(** The body of the [try] in the loop of [_non_stream_request], on the
    accumulators [(full_content, reasoning_content)]. *)
Definition fold_chunk (acc : str * str) (data_str : str) : exc (str * str) :=
  let (full_content, reasoning_content) := acc in
  chunk <- Json.loads data_str ;;
  ty <- py_get chunk (u "type") PNone ;;
  if py_eq_str ty (u "chat:completion") then
    data <- py_get chunk (u "data") (PDict []) ;;
    phase <- py_get data (u "phase") PNone ;;
    if py_eq_str phase (u "thinking") then
      delta <- py_get data (u "delta_content") (PStr []) ;;
      reasoning_content' <- str_add reasoning_content delta ;;
      Ok (full_content, reasoning_content')
    else if py_eq_str phase (u "answer") then
      delta <- py_get data (u "delta_content") (PStr []) ;;
      full_content' <- str_add full_content delta ;;
      Ok (full_content', reasoning_content)
    else Ok acc
  else Ok acc.

(** One iteration of the loop of [_non_stream_request]. *)
Definition fold_line (acc : str * str) (line : str) : str * str :=
  if negb (startswith line (u "data: ")) then acc
  else
    let data_str := strip (skipn 6 line) in
    if str_in data_str [u "[DONE]"; []] then acc
    else
      match try_except (fold_chunk acc data_str) (fun _ => Ok acc) with
      | Ok acc' => acc'
      | Raise _ => acc
      end.

(** The [return] of [_non_stream_request]. *)
Definition aggregated (acc : str * str) : pyobj :=
  let (full_content, reasoning_content) := acc in
  PDict [ (u "content", PStr (strip full_content));
          (u "reasoning_content",
           match reasoning_content with
           | [] => PNone
           | _ => PStr (strip reasoning_content)
           end) ].

Definition _non_stream_request (self : ZAIClient) (url : str)
           (headers body : dict) : exc pyobj :=
  let g := _stream_request self url headers
                           (dict_set body (u "stream") (PBool true)) in
  let acc := fold_left fold_line (yields g) ([], []) in
  match raised g with
  | Some e => Raise e
  | None => Ok (aggregated acc)
  end.

End Transport.

(** ** Delta extraction *)

(** The body of the [try] of [get_content_from_chunk]: [Some v] when it
    returns [v], [None] when it falls through. *)
Definition chunk_body (data_str : str) : exc (option pyobj) :=
  parsed <- Json.loads data_str ;;
  ty <- py_get parsed (u "type") PNone ;;
  if py_eq_str ty (u "chat:completion") then
    data <- py_get parsed (u "data") (PDict []) ;;
    delta <- py_get data (u "delta_content") (PStr []) ;;
    Ok (Some delta)
  else Ok None.

Definition get_content_from_chunk (self : ZAIClient) (chunk : str)
  : exc pyobj :=
  if startswith chunk (u "data: ") then
    let data_str := strip (skipn 6 chunk) in
    if negb (str_in data_str [u "[DONE]"; []]) then
      r <- try_except (chunk_body data_str) (fun _ => Ok None) ;;
      match r with
      | Some v => Ok v
      | None => Ok (PStr [])
      end
    else Ok (PStr [])
  else Ok (PStr []).

End ZAI.

(* ================================================================== *)
(** * The specification's statements *)
(* ================================================================== *)

(** Definitions that follow the words of the specification; the theorems
    below compare them with the functions of the client. *)

Module Spec.

Import Py.
Local Open Scope list_scope.

(** *** Signature Engine *)

(** A text of ASCII characters. *)
Definition is_ascii (s : str) : Prop := Forall (fun c => (c < 128)%N) s.

(** The bytes of an ASCII text. *)
Definition ascii_bytes (s : str) : bytes := map byte_of_N s.

(** [window_index = floor(timestamp_ms / 300000)] *)
Definition window_index (timestamp_ms : Z) : Z := (timestamp_ms / 300000)%Z.

(** The canonical string
    [requestId,{request_id},timestamp,{timestamp_ms},user_id,{identity}|{message_text}|{timestamp_ms}]. *)
Definition canonical (request_id : str) (timestamp_ms : Z)
           (identity message_text : str) : str :=
  u "requestId," ++ request_id ++ u ",timestamp," ++ str_of_int timestamp_ms
    ++ u ",user_id," ++ identity ++ u "|" ++ message_text ++ u "|"
    ++ str_of_int timestamp_ms.

(** Layer 1: the hexadecimal text of HMAC-SHA256 of the decimal window
    index under the secret. *)
Definition derived_key (secret_bytes : bytes) (timestamp_ms : Z) : str :=
  Sha256.hex (Sha256.hmac_new secret_bytes
                (ascii_bytes (str_of_int (window_index timestamp_ms)))).

(** Layer 2: HMAC-SHA256 of the canonical bytes under the bytes of the
    layer-1 text, in hexadecimal. *)
Definition signature (secret_bytes canonical_bytes : bytes)
           (timestamp_ms : Z) : str :=
  Sha256.hex (Sha256.hmac_new
                (ascii_bytes (derived_key secret_bytes timestamp_ms))
                canonical_bytes).

(** *** Stream Decoder *)

(** What the decoder yields for one line of the transport: nothing for a
    blank line, else the UTF-8 text of the line, or its
    one-character-per-byte text when it is not UTF-8, with the line
    terminator. *)
Definition line_units (line : bytes) : list str :=
  match line with
  | [] => []
  | _ =>
    match utf8_decode line with
    | Ok text => [text ++ newline]
    | Raise _ => [map bv line ++ newline]
    end
  end.

(** *** Response Aggregator *)

(** The text after the [data: ] prefix, trimmed. *)
Definition data_part (line : str) : str := strip (skipn 6 line).

(** A parsed payload with [type == "chat:completion"]: its object. *)
Definition completion_object (parsed : pyobj) : option dict :=
  match parsed with
  | PDict o =>
    match dict_lookup o (u "type") with
    | Some (PStr t) =>
      if str_eqb t (u "chat:completion") then Some o else None
    | _ => None
    end
  | _ => None
  end.

(** The payload of a [data: ] frame: its JSON object, when the line is
    such a frame and the object has [type == "chat:completion"]. *)
Definition completion_payload (line : str) : option dict :=
  if startswith line (u "data: ") then
    match Json.loads (data_part line) with
    | Ok parsed => completion_object parsed
    | Raise _ => None
    end
  else None.

(** The [data] object of a payload (empty when the field is absent). *)
Definition data_object (o : dict) : option dict :=
  match dict_get o (u "data") (PDict []) with
  | PDict d => Some d
  | _ => None
  end.

(** The [delta_content] of a payload: the field of its data object, the
    empty string when there is none. *)
Definition delta_content_of (o : dict) : pyobj :=
  match data_object o with
  | Some d => dict_get d (u "delta_content") (PStr [])
  | None => PStr []
  end.

(** What a line contributes to the aggregation. *)
Inductive event : Type :=
| Thinking (delta : str)
| Answer (delta : str)
| Ignored.

Definition frame_event (line : str) : event :=
  match completion_payload line with
  | Some o =>
    match data_object o with
    | Some d =>
      match dict_lookup d (u "phase"), dict_get d (u "delta_content") (PStr [])
      with
      | Some (PStr phase), PStr delta =>
        if str_eqb phase (u "thinking") then Thinking delta
        else if str_eqb phase (u "answer") then Answer delta
        else Ignored
      | _, _ => Ignored
      end
    | None => Ignored
    end
  | None => Ignored
  end.

(** The accumulators are [(content, reasoning)]. *)
Definition accumulate (acc : str * str) (e : event) : str * str :=
  match e with
  | Thinking delta => (fst acc, snd acc ++ delta)
  | Answer delta => (fst acc ++ delta, snd acc)
  | Ignored => acc
  end.

Definition accumulators (lines : list str) : str * str :=
  fold_left (fun acc line => accumulate acc (frame_event line)) lines ([], []).

(** The aggregated result: the trimmed content and, when the reasoning
    accumulator is not empty, the trimmed reasoning. *)
Definition result (acc : str * str) : str * option str :=
  (strip (fst acc),
   match snd acc with
   | [] => None
   | _ => Some (strip (snd acc))
   end).

(** The result as the dictionary the client returns. *)
Definition result_dict (r : str * option str) : pyobj :=
  PDict [ (u "content", PStr (fst r));
          (u "reasoning_content",
           match snd r with
           | Some t => PStr t
           | None => PNone
           end) ].

(** *** Identity Extractor *)

(** The ordered candidate claim keys. *)
Definition claim_keys : list str := [u "id"; u "user_id"; u "uid"; u "sub"].

Definition guest : str := u "guest".

(** The padding added to a payload segment. *)
Definition padding_of (segment : str) : str :=
  repeat 61%N ((4 - List.length segment mod 4) mod 4).

(** The first value present among the keys. *)
Fixpoint first_present (d : dict) (keys : list str) : option pyobj :=
  match keys with
  | [] => None
  | k :: keys' =>
    match dict_lookup d k with
    | Some v => Some v
    | None => first_present d keys'
    end
  end.

(** The first value among the keys that is present and true in a
    condition (not [None], [False], zero or empty). *)
Fixpoint first_truthy {rt : PyRuntime} (d : dict) (keys : list str)
  : option pyobj :=
  match keys with
  | [] => None
  | k :: keys' =>
    match dict_lookup d k with
    | Some v => if truthy v then Some v else first_truthy d keys'
    | None => first_truthy d keys'
    end
  end.

(** The second dot-separated segment of a token. *)
Definition payload_segment (token : str) : str := nth 1 (split token 46) [].

(** The segment with its padding. *)
Definition padded_segment (token : str) : str :=
  payload_segment token ++ padding_of (payload_segment token).

(** The identity read from the claims of a payload object. *)
Definition identity_of {rt : PyRuntime} (d : dict) : str :=
  match first_truthy d claim_keys with
  | Some v => py_str v
  | None => guest
  end.

(** A character of the base64url alphabet. *)
Definition is_b64url_char (c : N) : bool :=
  (N.leb 65 c && N.leb c 90) || (N.leb 97 c && N.leb c 122)
  || (N.leb 48 c && N.leb c 57) || N.eqb c 45 || N.eqb c 95.

(** A byte the base64 decoder reads as data: not the pad, and in the
    table. *)
Definition is_data (c : byte) : Prop :=
  bv c <> 61%N /\ exists v, Base64.table_a2b (bv c) = Some v.

(** *** Request Assembler *)

Definition default_upstream_id : str := u "0727-360B-API".

(** The provider id of a model name: the mapped id, else the default. *)
Definition upstream_id (model : str) : str :=
  match find (fun kv => str_eqb model (fst kv)) ZAI.MODEL_MAPPING with
  | Some kv => snd kv
  | None => default_upstream_id
  end.

(** The fields every request body has. *)
Definition body_fields : list str :=
  [ u "stream"; u "model"; u "messages"; u "params"; u "features";
    u "background_tasks"; u "mcp_servers"; u "variables"; u "model_item";
    u "chat_id"; u "id" ].

End Spec.

(* ================================================================== *)
(** * Inputs for evaluation *)
(* ================================================================== *)

Module Sample.

Import Py.
Local Open Scope list_scope.

Definition ascii_lower (s : str) : str :=
  map (fun c => if N.leb 65 c && N.leb c 90 then (c + 32)%N else c) s.

(** The part of a float literal before the exponent. *)
Fixpoint mantissa (lit : str) : str :=
  match lit with
  | [] => []
  | c :: lit' => if N.eqb c 101 || N.eqb c 69 then [] else c :: mantissa lit'
  end.

(** An instance of the interpreter's functions for evaluating examples.
    It agrees with CPython on ASCII letters, on strings of printable
    ASCII characters without quote or backslash, and on float literals
    that do not underflow; the examples stay within these. *)
Definition ascii_runtime : PyRuntime :=
  {| str_lower := ascii_lower;
     str_repr := fun s => [39%N] ++ s ++ [39%N];
     float_repr := fun lit => lit;
     float_is_zero := fun lit =>
       forallb (fun c => negb (Json.is_digit c) || N.eqb c 48) (mantissa lit)
  |}.

(** A client as [ZAIClient()] builds it. *)
Definition client : ZAI.ZAIClient := ZAI.__init__ None true.

(** A transport that answers every request with the same response. *)
Definition answer (r : ZAI.Response) : str -> dict -> dict -> exc ZAI.Response :=
  fun _ _ _ => Ok r.

(** A response with status 200 and the given lines. *)
Definition ok_response (lines : list bytes) : ZAI.Response :=
  {| ZAI.status_code := 200; ZAI.iter_lines := lines |}.

(** The scenario of the specification: three completion frames and the
    terminator. *)
Definition scenario_lines : list bytes :=
  [ qb "data: {'type':'chat:completion','data':{'phase':'thinking','delta_content':'A'}}";
    qb "data: {'type':'chat:completion','data':{'phase':'answer','delta_content':'Hi'}}";
    qb "data: {'type':'chat:completion','data':{'phase':'answer','delta_content':' there'}}";
    qb "data: [DONE]" ].

(** The same frames written without the space after the colon. *)
Definition scenario_lines_nospace : list bytes :=
  [ qb "data:{'type':'chat:completion','data':{'phase':'thinking','delta_content':'A'}}";
    qb "data:{'type':'chat:completion','data':{'phase':'answer','delta_content':'Hi'}}";
    qb "data:{'type':'chat:completion','data':{'phase':'answer','delta_content':' there'}}";
    qb "data:[DONE]" ].

Definition env : ZAI.BodyEnv :=
  {| ZAI.current_datetime := u "2025-01-01 08:00:00";
     ZAI.current_date := u "2025-01-01";
     ZAI.current_time := u "08:00:00";
     ZAI.current_weekday := u "Wednesday";
     ZAI.fresh_uuid := u "00000000-0000-4000-8000-000000000001" |}.

End Sample.

(* ================================================================== *)
(** * urllib.parse.urlencode *)
(* ================================================================== *)

Module Urllib.

Import Py.
Local Open Scope list_scope.
Local Open Scope exc_scope.

(** The characters [quote] never escapes: letters, digits and [_.-~]. *)
Definition always_safe (c : N) : bool :=
  (N.leb 65 c && N.leb c 90) || (N.leb 97 c && N.leb c 122)
  || (N.leb 48 c && N.leb c 57)
  || N.eqb c 95 || N.eqb c 46 || N.eqb c 45 || N.eqb c 126.

Definition hex_upper (n : N) : N :=
  if N.ltb n 10 then (48 + n)%N else (55 + n)%N.

(** One byte of [quote_from_bytes]: itself when safe, else a percent sign
    and two upper-case hexadecimal digits.  [space_safe] adds the space
    to the safe characters. *)
Definition quote_byte (space_safe : bool) (x : byte) : str :=
  if always_safe (bv x) || (space_safe && N.eqb (bv x) 32) then [bv x]
  else [37%N; hex_upper (bv x / 16); hex_upper (bv x mod 16)].

(** [quote(s, safe)] where [safe] is empty or the space: the UTF-8 bytes
    of [s], quoted. *)
Definition quote (s : str) (space_safe : bool) : exc str :=
  bs <- utf8_encode s ;;
  Ok (flat_map (quote_byte space_safe) bs).

(** [quote_plus(s)]: without a space in [s] it is [quote(s, '')]; with
    one the spaces are kept by [quote] and then replaced by [+]. *)
Definition quote_plus (s : str) : exc str :=
  if contains s [32%N] then
    fmap (map (fun c => if N.eqb c 32 then 43%N else c)) (quote s true)
  else quote s false.

Section Urlencode.

Context {rt : PyRuntime}.

(** The loop of [urlencode(query)] over the items of a dictionary with
    string keys: [quote_plus(str(k)) + '=' + quote_plus(str(v))]. *)
Fixpoint urlencode_items (query : dict) : exc (list str) :=
  match query with
  | [] => Ok []
  | (k, v) :: rest =>
    k' <- quote_plus k ;;
    v' <- quote_plus (py_str v) ;;
    items <- urlencode_items rest ;;
    Ok ((k' ++ [61%N] ++ v') :: items)
  end.

(** [urlencode(query)] *)
Definition urlencode (query : dict) : exc str :=
  items <- urlencode_items query ;;
  Ok (join [38%N] items).

End Urlencode.

End Urllib.

(* ================================================================== *)
(** * The client: credentials, headers and [chat] *)
(* ================================================================== *)

Module Chat.

Import Py ZAI.
Local Open Scope list_scope.
Local Open Scope exc_scope.

(** A [requests] response of the auth endpoint as [get_guest_token] reads
    it: the status and what [response.json()] gives. *)
Record AuthResponse : Type := {
  auth_status_code : Z;
  auth_json : exc pyobj
}.

(** What [chat] reads from its environment: the UUIDs of its two
    [_generate_uuid()] calls, [int(time.time() * 1000)], and what
    [_build_request_body] reads. *)
Record ChatEnv : Type := {
  chat_uuid : str;
  request_uuid : str;
  time_ms : Z;
  body_env : BodyEnv
}.

(** The texts of the exceptions the client raises. *)
Definition msg_guest_failed : str :=
  [33719; 21462; 35775; 23458; 116; 111; 107; 101; 110; 22833; 36133;
   58; 32]%N.

Definition msg_guest_error : str :=
  [33719; 21462; 35775; 23458; 116; 111; 107; 101; 110; 24322; 24120;
   58; 32]%N.

Definition msg_no_token : str :=
  [26410; 37197; 32622; 116; 111; 107; 101; 110; 19988; 26410; 21551;
   29992; 21311; 21517; 27169; 24335]%N.

(** The loop of [chat] over [reversed(messages)], from the message it is
    at: the content of the first message with the role "user", the empty
    string when there is none. *)
Fixpoint find_user (msgs : list pyobj) : exc pyobj :=
  match msgs with
  | [] => Ok (PStr [])
  | msg :: rest =>
    role <- py_get msg (u "role") PNone ;;
    if py_eq_str role (u "user")
    then py_get msg (u "content") (PStr [])
    else find_user rest
  end.

Section Client.

Context {rt : PyRuntime}.

(** [str(e)] for an exception the client catches: the message of an
    [Exception(msg)], and for the built-in exceptions a text the model
    takes from the interpreter. *)
Variable exn_text : exn -> str.

Definition exn_str (e : exn) : str :=
  match e with
  | Exception_ msg => msg
  | _ => exn_text e
  end.

(** [requests.get(url, headers=..., timeout=10)] *)
Variable requests_get : str -> dict -> exc AuthResponse.

(** [requests.post(url, headers=..., json=..., stream=True, timeout=60)] *)
Variable requests_post : str -> dict -> dict -> exc Response.

Definition guest_headers (self : ZAIClient) : dict :=
  [ (u "Accept", PStr (u "*/*"));
    (u "Accept-Language", PStr (u "zh-CN,zh;q=0.9"));
    (u "User-Agent",
     PStr (u "Mozilla/5.0 (Windows NT 10.0; Win64; x64) AppleWebKit/537.36"));
    (u "Referer", PStr (base_url self ++ u "/")) ].

(** The body of the [try] of [get_guest_token]. *)
Definition guest_token_body (self : ZAIClient) : exc pyobj :=
  response <- requests_get (auth_url self) (guest_headers self) ;;
  found <- (if Z.eqb (auth_status_code response) 200 then
              data <- auth_json response ;;
              token <- py_get data (u "token") (PStr []) ;;
              if truthy token then Ok (Some token) else Ok None
            else Ok None) ;;
  match found with
  | Some token => Ok token
  | None =>
    Raise (Exception_ (msg_guest_failed
                         ++ str_of_int (auth_status_code response)))
  end.

Definition get_guest_token (self : ZAIClient) : exc pyobj :=
  try_except (guest_token_body self)
             (fun e => Raise (Exception_ (msg_guest_error ++ exn_str e))).

(** [if self.token:] holds for a token that was given and is not the
    empty string. *)
Definition _get_token (self : ZAIClient) : exc pyobj :=
  match token self with
  | Some (c :: t) => Ok (PStr (c :: t))
  | _ =>
    if anonymous self then get_guest_token self
    else Raise (Exception_ msg_no_token)
  end.

Definition _build_headers (self : ZAIClient) (token : pyobj)
           (chat_id signature : str) : dict :=
  [ (u "Content-Type", PStr (u "application/json"));
    (u "Accept", PStr (u "application/json, text/event-stream"));
    (u "User-Agent",
     PStr (u "Mozilla/5.0 (Windows NT 10.0; Win64; x64) AppleWebKit/537.36"));
    (u "Accept-Language", PStr (u "zh-CN,zh;q=0.9"));
    (u "Authorization", PStr (u "Bearer " ++ py_str token));
    (u "X-Signature", PStr signature);
    (u "X-FE-Version", PStr (u "prod-fe-1.0.79"));
    (u "Origin", PStr (base_url self));
    (u "Referer", PStr (base_url self ++ u "/c/" ++ chat_id)) ].

(** [self._extract_user_id_from_token(token)] for the token [_get_token]
    returned: a token that is not a string has no [split], and the bare
    [except] answers "guest". *)
Definition user_id_of (self : ZAIClient) (token : pyobj) : exc str :=
  match token with
  | PStr t => _extract_user_id_from_token self t
  | _ => Ok (u "guest")
  end.

(** The query parameters of [chat]. *)
Definition query_params (self : ZAIClient) (token : pyobj)
           (chat_id request_id user_id : str) (timestamp_ms : Z) : dict :=
  [ (u "timestamp", PInt timestamp_ms);
    (u "requestId", PStr request_id);
    (u "user_id", PStr user_id);
    (u "token", token);
    (u "current_url", PStr (base_url self ++ u "/c/" ++ chat_id));
    (u "pathname", PStr (u "/c/" ++ chat_id));
    (u "signature_timestamp", PInt timestamp_ms) ].

(** [chat] up to the request it is about to send: the URL, the headers
    and the body.  [kwargs] is the keyword dictionary of [chat], which
    cannot hold the names of [chat]'s own parameters; the name [chat_id]
    in it collides with the argument of [_build_request_body].  The
    f-string of the signature formats the message with [str]. *)
Definition chat_request (self : ZAIClient) (env : ChatEnv)
           (messages : list pyobj) (model : str) (stream : bool)
           (kwargs : dict) : exc (str * dict * dict) :=
  token <- _get_token self ;;
  let chat_id := chat_uuid env in
  let request_id := request_uuid env in
  let timestamp_ms := time_ms env in
  user_id <- user_id_of self token ;;
  last_user_message <- find_user (rev messages) ;;
  signature <- _generate_signature self (py_str last_user_message)
                                   request_id timestamp_ms user_id ;;
  let headers := _build_headers self token chat_id signature in
  body <- (if dict_contains kwargs (u "chat_id") then Raise TypeError
           else _build_request_body self (body_env env) (PList messages)
                                    model chat_id
                                    ((u "stream", PBool stream) :: kwargs)) ;;
  match body with
  | PDict body =>
    query <- Urllib.urlencode
               (query_params self token chat_id request_id user_id
                             timestamp_ms) ;;
    Ok (api_url self ++ u "?" ++ query, headers, body)
  | _ => Raise TypeError
  end.

(** [chat]: the generator of [_stream_request] when [stream] is true,
    the dictionary of [_non_stream_request] otherwise. *)
Definition chat (self : ZAIClient) (env : ChatEnv)
           (messages : list pyobj) (model : str) (stream : bool)
           (kwargs : dict) : exc (gen str + pyobj) :=
  request <- chat_request self env messages model stream kwargs ;;
  match request with
  | (url, headers, body) =>
    if stream
    then Ok (inl (_stream_request requests_post self url headers body))
    else fmap inr (_non_stream_request requests_post self url headers body)
  end.

End Client.

(** ** Notions the properties are stated with *)



(** The deltas a sequence of lines holds for the content. *)
Fixpoint answer_deltas (lines : list str) : str :=
  match lines with
  | [] => []
  | line :: rest =>
    match Spec.frame_event line with
    | Spec.Answer delta => delta ++ answer_deltas rest
    | _ => answer_deltas rest
    end
  end.

(** The deltas a sequence of lines holds for the reasoning. *)
Fixpoint thinking_deltas (lines : list str) : str :=
  match lines with
  | [] => []
  | line :: rest =>
    match Spec.frame_event line with
    | Spec.Thinking delta => delta ++ thinking_deltas rest
    | _ => thinking_deltas rest
    end
  end.

(** A transport that serves stream requests only: a body whose [stream]
    field is not [True] is refused. *)
Definition only_streams (post : str -> dict -> dict -> exc Response)
  : str -> dict -> dict -> exc Response :=
  fun url headers body =>
    match dict_lookup body (u "stream") with
    | Some (PBool true) => post url headers body
    | _ => Raise (Exception_ (u "not a stream request"))
    end.

(** The entry of an option in a dictionary, when it was supplied. *)
Definition supplied (kwargs : dict) (k : str) : dict :=
  match dict_lookup kwargs k with
  | Some v => [(k, v)]
  | None => []
  end.

(** A message of the role "user" and the content it carries. *)
Definition is_user_message (msg : pyobj) (content : pyobj) : Prop :=
  exists d, msg = PDict d /\
            dict_lookup d (u "role") = Some (PStr (u "user")) /\
            content = dict_get d (u "content") (PStr []).

(** A message that is a dictionary of another role. *)
Definition is_other_message (msg : pyobj) : Prop :=
  exists d, msg = PDict d /\
            py_eq_str (dict_get d (u "role") PNone) (u "user") = false.

(** The options [_build_request_body] reads. *)
Definition body_options : list str :=
  [u "stream"; u "temperature"; u "max_tokens"; u "tools"].



End Chat.

Module Sample2.

Import Py.
Local Open Scope list_scope.

(** An auth endpoint that answers every request with the same response. *)
Definition auth_answer (r : Chat.AuthResponse)
  : str -> dict -> exc Chat.AuthResponse := fun _ _ => Ok r.

(** An auth endpoint that cannot be reached. *)
Definition auth_down : str -> dict -> exc Chat.AuthResponse :=
  fun _ _ => Raise (Exception_ (u "connection refused")).

(** A transport that cannot be reached. *)
Definition post_down : str -> dict -> dict -> exc ZAI.Response :=
  fun _ _ _ => Raise (Exception_ (u "connection refused")).

Definition no_text : exn -> str := fun _ => u "error".

Definition chat_env : Chat.ChatEnv :=
  {| Chat.chat_uuid := u "11111111-1111-4111-8111-111111111111";
     Chat.request_uuid := u "22222222-2222-4222-8222-222222222222";
     Chat.time_ms := 1700000000123;
     Chat.body_env := Sample.env |}.

(** A client with a token whose payload is [{"id":42}]. *)
Definition client_with_token : ZAI.ZAIClient :=
  ZAI.__init__ (Some (u "h.eyJpZCI6NDJ9.s")) true.

Definition user (content : str) : pyobj :=
  PDict [(u "role", PStr (u "user")); (u "content", PStr content)].

Definition assistant (content : str) : pyobj :=
  PDict [(u "role", PStr (u "assistant")); (u "content", PStr content)].

(** A conversation whose last message of the role "user" is followed by
    a message of another role. *)
Definition messages : list pyobj :=
  [user (u "hi"); assistant (u "hello"); user (u "what is 1 + 1?");
   assistant (u "...")].

(** The request [chat] builds for this conversation. *)
Definition request : exc (str * dict * dict) :=
  @Chat.chat_request Sample.ascii_runtime no_text auth_down
                     client_with_token chat_env messages (u "GLM-4.6")
                     true [(u "temperature", PInt 1)].

Definition request_url : str :=
  match request with Ok (url, _, _) => url | Raise _ => [] end.

Definition request_headers : dict :=
  match request with Ok (_, headers, _) => headers | Raise _ => [] end.

Definition request_body : dict :=
  match request with Ok (_, _, body) => body | Raise _ => [] end.

End Sample2.

(* ================================================================== *)
(** * Properties *)
(* ================================================================== *)

Import Py.
Local Open Scope list_scope.

(** ** Strings *)

Lemma str_eqb_refl (s : str) : str_eqb s s = true.
Proof.
  induction s as [|c s IH]; simpl; [reflexivity|].
  now rewrite N.eqb_refl, IH.
Qed.

Lemma str_eqb_eq (s t : str) : str_eqb s t = true <-> s = t.
Proof.
  split.
  - revert t; induction s as [|c s IH]; intros [|d t]; simpl;
      try discriminate; [reflexivity|].
    intros H. apply andb_true_iff in H as [Hc Hs].
    apply N.eqb_eq in Hc. apply IH in Hs. now subst.
  - intros ->. apply str_eqb_refl.
Qed.

Lemma str_eqb_neq (s t : str) : str_eqb s t = false <-> s <> t.
Proof.
  split.
  - intros H E. apply str_eqb_eq in E. congruence.
  - intros H. destruct (str_eqb s t) eqn:E; [|reflexivity].
    apply str_eqb_eq in E. contradiction.
Qed.

(** ** The error monad *)

Lemma fmap_Ok {A B} (f : A -> B) (m : exc A) (y : B) :
  fmap f m = Ok y -> exists x, m = Ok x /\ y = f x.
Proof.
  destruct m as [x|e]; simpl; intros H; [|discriminate].
  injection H as <-. now exists x.
Qed.

Lemma fmap_Raise {A B} (f : A -> B) (m : exc A) (e : exn) :
  fmap f m = Raise e -> m = Raise e.
Proof.
  destruct m as [x|e']; simpl; intros H; [discriminate|].
  now injection H as <-.
Qed.

(** ** The UTF-8 decoder *)

(** Case analysis on the tests and the look-ahead of one decoder step. *)
Ltac decoder_cases :=
  repeat match goal with
         | |- context [if ?c then _ else _] => destruct c
         | |- context [match ?l with [] => _ | _ :: _ => _ end] => destruct l
         end.

(** The strict decoder raises nothing but [UnicodeDecodeError]. *)
Lemma utf8_decode_raise (bs : bytes) (e : exn) :
  utf8_decode bs = Raise e -> e = UnicodeDecodeError.
Proof.
  remember (List.length bs) as n eqn:Hn.
  revert bs Hn e.
  induction n as [n IH] using lt_wf_ind.
  intros [|b0 t0] Hn e; simpl; [discriminate|].
  simpl in Hn.
  decoder_cases; intros H;
    try (injection H as <-; reflexivity);
    apply fmap_Raise in H;
    (eapply IH; [| reflexivity | exact H]); subst n; simpl; lia.
Qed.

(** A line that decodes and is not empty decodes to a text that is not
    empty. *)
Lemma utf8_decode_nonempty (x : byte) (bs : bytes) (s : str) :
  utf8_decode (x :: bs) = Ok s -> s <> [].
Proof.
  simpl. decoder_cases; intros H; try discriminate;
    apply fmap_Ok in H as (r & _ & ->); discriminate.
Qed.

(** ** Stream Decoder *)

Import ZAI.

(** One iteration of the loop yields what the specification says for the
    line, and never raises. *)
Lemma decode_line_units (line : bytes) :
  decode_line line = Ok (Spec.line_units line).
Proof.
  unfold decode_line, Spec.line_units.
  destruct line as [|x line]; [reflexivity|].
  destruct (utf8_decode (x :: line)) as [text|e] eqn:E; [reflexivity|].
  apply utf8_decode_raise in E. subst e. reflexivity.
Qed.

(** The loop runs to the end of the lines. *)
Lemma stream_loop_units (lines : list bytes) :
  stream_loop lines = Gen (flat_map Spec.line_units lines) None.
Proof.
  induction lines as [|line rest IH]; [reflexivity|].
  cbn [stream_loop flat_map]. rewrite decode_line_units, IH. reflexivity.
Qed.

Lemma line_units_inv (line : bytes) (unit : str) :
  In unit (Spec.line_units line) ->
  exists text,
    line <> [] /\
    (utf8_decode line = Ok text \/
     (utf8_decode line = Raise UnicodeDecodeError /\
      latin1_decode line = Ok text)) /\
    text <> [] /\ unit = text ++ newline.
Proof.
  unfold Spec.line_units.
  destruct line as [|x line]; [intros []|].
  destruct (utf8_decode (x :: line)) as [text|e] eqn:E;
    intros [<-|[]].
  - exists text. repeat split; try discriminate; [now left|].
    eapply utf8_decode_nonempty; eassumption.
  - exists (map bv (x :: line)).
    pose proof (utf8_decode_raise _ E) as ->.
    repeat split; try discriminate. right. split; reflexivity.
Qed.

Section StreamDecoder.

Variable post : str -> dict -> dict -> exc Response.
Variables (self : ZAIClient) (url : str) (headers body : dict).

(** After a success status the generator is the loop over the lines. *)
Lemma stream_request_ok (response : Response) :
  post url headers body = Ok response ->
  status_code response = 200%Z ->
  _stream_request post self url headers body
  = Gen (flat_map Spec.line_units (iter_lines response)) None.
Proof.
  intros Hp Hs. unfold _stream_request. rewrite Hp, Hs. simpl.
  apply stream_loop_units.
Qed.

(** Without a success status nothing is yielded. *)
Lemma stream_request_yields_inv (unit : str) :
  In unit (yields (_stream_request post self url headers body)) ->
  exists response,
    post url headers body = Ok response /\ status_code response = 200%Z /\
    In unit (flat_map Spec.line_units (iter_lines response)).
Proof.
  unfold _stream_request.
  destruct (post url headers body) as [response|e]; [|intros []].
  destruct (Z.eqb (status_code response) 200) eqn:E; simpl; [|intros []].
  apply Z.eqb_eq in E. rewrite stream_loop_units. simpl.
  intros H. now exists response.
Qed.

(** C9.  Every unit the Stream Decoder yields is the text of a line of
    the transport that was decoded (as UTF-8, or one character per byte
    when it is not UTF-8) followed by the line terminator; the line is
    not blank, and the text before the terminator is not empty. *)
Theorem stream_units_decoded_nonempty (unit : str) :
  In unit (yields (_stream_request post self url headers body)) ->
  exists response line text,
    post url headers body = Ok response /\
    status_code response = 200%Z /\
    In line (iter_lines response) /\
    line <> [] /\
    (utf8_decode line = Ok text \/
     (utf8_decode line = Raise UnicodeDecodeError /\
      latin1_decode line = Ok text)) /\
    text <> [] /\
    unit = text ++ newline.
Proof.
  intros H.
  apply stream_request_yields_inv in H as (response & Hp & Hs & H).
  apply in_flat_map in H as (line & Hl & Hu).
  apply line_units_inv in Hu as (text & Hne & Hd & Ht & ->).
  exists response, line, text. repeat split; assumption.
Qed.

(** C3, as amended.  After a success status, a line that is not valid
    UTF-8 does not end the stream and is not dropped either: it is
    yielded as its one-character-per-byte text.  The stream ends without
    an exception, and what is yielded for the lines after it is what is
    yielded for them alone; in particular every later line that is not
    blank and is valid UTF-8 is yielded. *)
Theorem stream_continues_past_bad_line
        (response : Response) (pre : list bytes) (bad : bytes)
        (later : list bytes) :
  post url headers body = Ok response ->
  status_code response = 200%Z ->
  iter_lines response = pre ++ bad :: later ->
  let g := _stream_request post self url headers body in
  raised g = None /\
  yields g = flat_map Spec.line_units pre ++ Spec.line_units bad
               ++ flat_map Spec.line_units later /\
  (bad <> [] -> forall e, utf8_decode bad = Raise e ->
   Spec.line_units bad = [map bv bad ++ newline]) /\
  (forall line text,
      In line later -> line <> [] -> utf8_decode line = Ok text ->
      In (text ++ newline) (yields g)).
Proof.
  intros Hp Hs Hl g. subst g.
  rewrite (stream_request_ok Hp Hs), Hl. cbn [raised yields].
  rewrite flat_map_app. cbn [flat_map].
  split; [reflexivity|]. split; [reflexivity|]. split.
  - intros Hne e He. unfold Spec.line_units.
    destruct bad; [contradiction|]. now rewrite He.
  - intros line text Hin Hne Hd.
    apply in_or_app. right. apply in_or_app. right.
    apply in_flat_map. exists line. split; [assumption|].
    unfold Spec.line_units. destruct line; [contradiction|].
    rewrite Hd. now left.
Qed.

End StreamDecoder.

Lemma stream_units_decoded_nonempty_witness :
  exists response line text,
    Sample.answer (Sample.ok_response [b "hello"]) [] [] [] = Ok response /\
    status_code response = 200%Z /\
    In line (iter_lines response) /\
    line <> [] /\
    (utf8_decode line = Ok text \/
     (utf8_decode line = Raise UnicodeDecodeError /\
      latin1_decode line = Ok text)) /\
    text <> [] /\
    u "hello" ++ newline = text ++ newline.
Proof.
  apply (stream_units_decoded_nonempty
           (Sample.answer (Sample.ok_response [b "hello"]))
           Sample.client [] [] []).
  vm_compute. left. reflexivity.
Defined.

Lemma stream_continues_past_bad_line_witness :
  let g := _stream_request
             (Sample.answer (Sample.ok_response [b "a"; [xff]; b "ok"]))
             Sample.client [] [] [] in
  raised g = None /\
  yields g = flat_map Spec.line_units [b "a"] ++ Spec.line_units [xff]
               ++ flat_map Spec.line_units [b "ok"] /\
  ([xff] <> [] -> forall e, utf8_decode [xff] = Raise e ->
   Spec.line_units [xff] = [map bv [xff] ++ newline]) /\
  (forall line text,
      In line [b "ok"] -> line <> [] -> utf8_decode line = Ok text ->
      In (text ++ newline) (yields g)).
Proof.
  apply (@stream_continues_past_bad_line
           (Sample.answer (Sample.ok_response [b "a"; [xff]; b "ok"]))
           Sample.client [] [] []
           (Sample.ok_response [b "a"; [xff]; b "ok"]) [b "a"] [xff] [b "ok"]);
    reflexivity.
Defined.

(** C3, as stated, fails: the line [ff] is not valid UTF-8, and it is
    not skipped; the decoder yields it as the character U+00FF before the
    later line. *)
Lemma undecodable_line_is_yielded :
  utf8_decode [xff] = Raise UnicodeDecodeError /\
  yields (_stream_request
            (Sample.answer (Sample.ok_response [[xff]; b "ok"]))
            Sample.client [] [] [])
  = [[255%N] ++ newline; u "ok" ++ newline] /\
  yields (_stream_request
            (Sample.answer (Sample.ok_response [[xff]; b "ok"]))
            Sample.client [] [] [])
  <> yields (_stream_request
               (Sample.answer (Sample.ok_response [b "ok"]))
               Sample.client [] [] []).
Proof.
  split; [reflexivity|]. split; [reflexivity|]. vm_compute. discriminate.
Qed.

(** ** Response Aggregator *)

Lemma loads_done : exists e, Json.loads (u "[DONE]") = Raise e.
Proof. eexists. vm_compute. reflexivity. Qed.

Lemma loads_empty : exists e, Json.loads [] = Raise e.
Proof. eexists. vm_compute. reflexivity. Qed.

Lemma dict_get_lookup (d : dict) (k : str) (default : pyobj) :
  dict_get d k default
  = match dict_lookup d k with Some v => v | None => default end.
Proof. reflexivity. Qed.

(** The two texts the client passes over are not JSON. *)
Lemma skipped_data_not_json (data_str : str) :
  str_in data_str [u "[DONE]"; []] = true ->
  exists e, Json.loads data_str = Raise e.
Proof.
  unfold str_in. cbn [existsb]. intros H.
  apply orb_true_iff in H as [H|H].
  - apply str_eqb_eq in H. subst. apply loads_done.
  - apply orb_true_iff in H as [H|H]; [|discriminate].
    apply str_eqb_eq in H. subst. apply loads_empty.
Qed.

(** One iteration of the aggregation loop is one step of the
    specification's fold. *)
Lemma fold_line_event (acc : str * str) (line : str) :
  fold_line acc line = Spec.accumulate acc (Spec.frame_event line).
Proof.
  unfold fold_line, Spec.frame_event, Spec.completion_payload,
    Spec.completion_object, Spec.data_part.
  destruct (startswith line (u "data: ")); cbn [negb]; [|reflexivity].
  destruct (str_in (strip (skipn 6 line)) [u "[DONE]"; []]) eqn:Hin.
  { apply skipped_data_not_json in Hin as [e ->]. reflexivity. }
  unfold fold_chunk, try_except. destruct acc as [content reasoning].
  destruct (Json.loads (strip (skipn 6 line))) as [chunk|e];
    cbn [bind]; [|reflexivity].
  destruct chunk as [| | | | |l|o]; cbn [py_get bind]; try reflexivity.
  rewrite (dict_get_lookup o (u "type")).
  destruct (dict_lookup o (u "type")) as [ty|]; [|reflexivity].
  destruct ty as [| | | |t| |]; cbn [py_eq_str]; try reflexivity.
  destruct (str_eqb t (u "chat:completion")); [|reflexivity].
  unfold Spec.data_object.
  destruct (dict_get o (u "data") (PDict [])) as [| | | | |l|d];
    cbn [py_get bind]; try reflexivity.
  rewrite (dict_get_lookup d (u "phase")).
  destruct (dict_lookup d (u "phase")) as [phase|]; [|reflexivity].
  destruct phase as [| | | |p| |]; cbn [py_eq_str]; try reflexivity.
  destruct (str_eqb p (u "thinking")).
  { destruct (dict_get d (u "delta_content") (PStr []));
      reflexivity. }
  destruct (str_eqb p (u "answer"));
    destruct (dict_get d (u "delta_content") (PStr [])); reflexivity.
Qed.

Lemma fold_lines_events (lines : list str) (acc : str * str) :
  fold_left fold_line lines acc
  = fold_left (fun a line => Spec.accumulate a (Spec.frame_event line))
              lines acc.
Proof.
  revert acc. induction lines as [|line rest IH]; intros acc;
    [reflexivity|].
  cbn [fold_left]. rewrite fold_line_event. apply IH.
Qed.

Lemma aggregated_result (acc : str * str) :
  aggregated acc = Spec.result_dict (Spec.result acc).
Proof.
  destruct acc as [content [|c reasoning]]; reflexivity.
Qed.

Lemma non_stream_request_fold
      (post : str -> dict -> dict -> exc Response) (self : ZAIClient)
      (url : str) (headers body : dict) (response : Response) :
  post url headers (dict_set body (u "stream") (PBool true)) = Ok response ->
  status_code response = 200%Z ->
  _non_stream_request post self url headers body
  = Ok (Spec.result_dict
          (Spec.result
             (Spec.accumulators
                (flat_map Spec.line_units (iter_lines response))))).
Proof.
  intros Hp Hs. unfold _non_stream_request.
  rewrite (@stream_request_ok post self _ _ _ _ Hp Hs). cbn [yields raised].
  rewrite fold_lines_events, aggregated_result. reflexivity.
Qed.

(** C2.  The aggregation loop over any sequence of lines is the fold of
    the specification: a completion frame in the thinking phase appends
    its delta to the reasoning accumulator, one in the answer phase
    appends it to the content accumulator, every other line is ignored.
    After a success status, non-streaming aggregation returns the result
    of that fold over the yielded lines: the trimmed content accumulator
    and, as reasoning, the trimmed reasoning accumulator when that is not
    empty and [None] otherwise.  The four frames of the scenario give the
    content "Hi there" and the reasoning "A". *)
Theorem non_stream_aggregation :
  (forall lines : list str,
      fold_left fold_line lines ([], []) = Spec.accumulators lines) /\
  (forall (post : str -> dict -> dict -> exc Response) (self : ZAIClient)
          (url : str) (headers body : dict) (response : Response),
      post url headers (dict_set body (u "stream") (PBool true))
      = Ok response ->
      status_code response = 200%Z ->
      _non_stream_request post self url headers body
      = Ok (Spec.result_dict
              (Spec.result
                 (Spec.accumulators
                    (flat_map Spec.line_units (iter_lines response)))))) /\
  _non_stream_request
    (Sample.answer (Sample.ok_response Sample.scenario_lines))
    Sample.client [] [] []
  = Ok (Spec.result_dict (u "Hi there", Some (u "A"))).
Proof.
  split; [|split].
  - intros lines. apply fold_lines_events.
  - apply non_stream_request_fold.
  - vm_compute. reflexivity.
Qed.

Lemma non_stream_aggregation_witness :
  _non_stream_request
    (Sample.answer
       (Sample.ok_response
          [qb "data: {'type':'chat:completion','data':{'phase':'answer','delta_content':' ok '}}";
           qb "data: {'type':'chat:completion','data':{'phase':'other','delta_content':'x'}}";
           qb ": keep-alive"]))
    Sample.client [] [] []
  = Ok (Spec.result_dict (u "ok", None)).
Proof.
  rewrite (proj1 (proj2 non_stream_aggregation)
                 (Sample.answer
                    (Sample.ok_response
                       [qb "data: {'type':'chat:completion','data':{'phase':'answer','delta_content':' ok '}}";
                        qb "data: {'type':'chat:completion','data':{'phase':'other','delta_content':'x'}}";
                        qb ": keep-alive"]))
                 Sample.client [] [] [] _ eq_refl eq_refl).
  vm_compute. reflexivity.
Defined.

(** The frames of the scenario as the specification prints them, without
    the space after [data:], are not [data: ] frames: nothing is
    aggregated from them. *)
Lemma scenario_without_space :
  _non_stream_request
    (Sample.answer (Sample.ok_response Sample.scenario_lines_nospace))
    Sample.client [] [] []
  = Ok (Spec.result_dict ([], None)).
Proof. vm_compute. reflexivity. Qed.

(** ** Delta extraction *)

(** [get_content_from_chunk] returns the delta of a completion frame and
    the empty string for every other line. *)
Lemma get_content_payload (self : ZAIClient) (chunk : str) :
  get_content_from_chunk self chunk
  = Ok match Spec.completion_payload chunk with
       | Some o => Spec.delta_content_of o
       | None => PStr []
       end.
Proof.
  unfold get_content_from_chunk, Spec.completion_payload,
    Spec.completion_object, Spec.data_part.
  destruct (startswith chunk (u "data: ")); [|reflexivity].
  destruct (str_in (strip (skipn 6 chunk)) [u "[DONE]"; []]) eqn:Hin;
    cbn [negb].
  { apply skipped_data_not_json in Hin as [e ->]. reflexivity. }
  unfold chunk_body, try_except.
  destruct (Json.loads (strip (skipn 6 chunk))) as [parsed|e];
    cbn [bind]; [|reflexivity].
  destruct parsed as [| | | | |l|o]; cbn [py_get bind]; try reflexivity.
  rewrite (dict_get_lookup o (u "type")).
  destruct (dict_lookup o (u "type")) as [ty|]; [|reflexivity].
  destruct ty as [| | | |t| |]; cbn [py_eq_str]; try reflexivity.
  destruct (str_eqb t (u "chat:completion")); [|reflexivity].
  unfold Spec.delta_content_of, Spec.data_object.
  destruct (dict_get o (u "data") (PDict [])); reflexivity.
Qed.

(** C4.  For every input [get_content_from_chunk] returns without
    raising.  It returns the empty string when the line does not start
    with [data: ], when the data part is the terminator or empty, when
    the data part is not JSON, and when the parsed JSON has no
    [type == "chat:completion"]; otherwise it returns the
    [delta_content] of the payload's data object, the empty string when
    there is none.  The three scenarios evaluate to "", "" and "x". *)
Theorem get_content_from_chunk_cases :
  (forall (self : ZAIClient) (chunk : str),
      (exists v, get_content_from_chunk self chunk = Ok v) /\
      (startswith chunk (u "data: ") = false ->
       get_content_from_chunk self chunk = Ok (PStr [])) /\
      (Spec.data_part chunk = u "[DONE]" \/ Spec.data_part chunk = [] ->
       get_content_from_chunk self chunk = Ok (PStr [])) /\
      (forall e, Json.loads (Spec.data_part chunk) = Raise e ->
                 get_content_from_chunk self chunk = Ok (PStr [])) /\
      (forall parsed,
          Json.loads (Spec.data_part chunk) = Ok parsed ->
          Spec.completion_object parsed = None ->
          get_content_from_chunk self chunk = Ok (PStr [])) /\
      (forall parsed o,
          startswith chunk (u "data: ") = true ->
          Json.loads (Spec.data_part chunk) = Ok parsed ->
          Spec.completion_object parsed = Some o ->
          get_content_from_chunk self chunk = Ok (Spec.delta_content_of o)))
  /\ get_content_from_chunk Sample.client (u "data: [DONE]") = Ok (PStr [])
  /\ get_content_from_chunk Sample.client (u "not-a-data-line") = Ok (PStr [])
  /\ get_content_from_chunk Sample.client
       (q "data: {'type':'chat:completion','data':{'delta_content':'x'}}")
     = Ok (PStr (u "x")).
Proof.
  split; [|repeat split; vm_compute; reflexivity].
  intros self chunk. rewrite get_content_payload.
  unfold Spec.completion_payload.
  split; [eexists; reflexivity|].
  split; [intros ->; reflexivity|].
  split.
  { intros H. destruct (startswith chunk (u "data: ")); [|reflexivity].
    destruct H as [-> | ->]; reflexivity. }
  split.
  { intros e ->. destruct (startswith chunk (u "data: ")); reflexivity. }
  split.
  { intros parsed -> ->.
    destruct (startswith chunk (u "data: ")); reflexivity. }
  intros parsed o -> -> ->. reflexivity.
Qed.

Lemma get_content_from_chunk_cases_witness :
  get_content_from_chunk Sample.client
    (q "data: {'type':'chat:completion','data':{'phase':'answer','delta_content':'Hi'}}")
  = Ok (PStr (u "Hi")).
Proof.
  destruct (proj1 get_content_from_chunk_cases Sample.client
    (q "data: {'type':'chat:completion','data':{'phase':'answer','delta_content':'Hi'}}"))
    as (_ & _ & _ & _ & _ & H).
  rewrite (H (PDict [(u "type", PStr (u "chat:completion"));
                     (u "data", PDict [(u "phase", PStr (u "answer"));
                                       (u "delta_content", PStr (u "Hi"))])])
             [(u "type", PStr (u "chat:completion"));
              (u "data", PDict [(u "phase", PStr (u "answer"));
                                (u "delta_content", PStr (u "Hi"))])]
             eq_refl eq_refl eq_refl).
  reflexivity.
Defined.

(** C10.  [get_content_from_chunk] does not read the phase: two
    completion frames whose data objects have the same [delta_content]
    give the same result, the [delta_content], whatever their phases.
    Frames in the thinking phase, the answer phase and another phase
    with the delta "x" all give "x". *)
Theorem get_content_ignores_phase :
  (forall (self : ZAIClient) (c1 c2 : str) (o1 o2 d1 d2 : dict),
      Spec.completion_payload c1 = Some o1 ->
      Spec.completion_payload c2 = Some o2 ->
      Spec.data_object o1 = Some d1 ->
      Spec.data_object o2 = Some d2 ->
      dict_lookup d1 (u "delta_content") = dict_lookup d2 (u "delta_content") ->
      get_content_from_chunk self c1 = get_content_from_chunk self c2 /\
      get_content_from_chunk self c1
      = Ok (dict_get d1 (u "delta_content") (PStr [])))
  /\ get_content_from_chunk Sample.client
       (q "data: {'type':'chat:completion','data':{'phase':'thinking','delta_content':'x'}}")
     = Ok (PStr (u "x"))
  /\ get_content_from_chunk Sample.client
       (q "data: {'type':'chat:completion','data':{'phase':'answer','delta_content':'x'}}")
     = Ok (PStr (u "x"))
  /\ get_content_from_chunk Sample.client
       (q "data: {'type':'chat:completion','data':{'phase':'other','delta_content':'x'}}")
     = Ok (PStr (u "x")).
Proof.
  split; [|repeat split; vm_compute; reflexivity].
  intros self c1 c2 o1 o2 d1 d2 H1 H2 Hd1 Hd2 Heq.
  rewrite !get_content_payload, H1, H2.
  unfold Spec.delta_content_of. rewrite Hd1, Hd2.
  unfold dict_get. rewrite Heq. split; reflexivity.
Qed.

Lemma get_content_ignores_phase_witness :
  get_content_from_chunk Sample.client
    (q "data: {'type':'chat:completion','data':{'phase':'thinking','delta_content':'same'}}")
  = get_content_from_chunk Sample.client
      (q "data: {'type':'chat:completion','data':{'delta_content':'same','phase':'answer'}}").
Proof.
  apply (proj1 get_content_ignores_phase Sample.client
           (q "data: {'type':'chat:completion','data':{'phase':'thinking','delta_content':'same'}}")
           (q "data: {'type':'chat:completion','data':{'delta_content':'same','phase':'answer'}}")
           [(u "type", PStr (u "chat:completion"));
            (u "data", PDict [(u "phase", PStr (u "thinking"));
                              (u "delta_content", PStr (u "same"))])]
           [(u "type", PStr (u "chat:completion"));
            (u "data", PDict [(u "delta_content", PStr (u "same"));
                              (u "phase", PStr (u "answer"))])]
           [(u "phase", PStr (u "thinking"));
            (u "delta_content", PStr (u "same"))]
           [(u "delta_content", PStr (u "same"));
            (u "phase", PStr (u "answer"))]);
    vm_compute; reflexivity.
Defined.

(** ** Signature Engine *)

(** The hash and the MAC on the test vectors of FIPS 180-4 and of the
    usual HMAC examples. *)
Example sha256_abc :
  Sha256.hex (Sha256.sha256 (b "abc"))
  = u "ba7816bf8f01cfea414140de5dae2223b00361a396177a9cb410ff61f20015ad".
Proof. vm_compute. reflexivity. Qed.

Example sha256_empty :
  Sha256.hex (Sha256.sha256 [])
  = u "e3b0c44298fc1c149afbf4c8996fb92427ae41e4649b934ca495991b7852b855".
Proof. vm_compute. reflexivity. Qed.

Example sha256_two_blocks :
  Sha256.hex (Sha256.sha256
                (b "abcdbcdecdefdefgefghfghighijhijkijkljklmklmnlmnomnopnopq"))
  = u "248d6a61d20638b8e5c026930c3e6039a33ce45964ff2167f6ecedd419db06c1".
Proof. vm_compute. reflexivity. Qed.

Example hmac_sha256_fox :
  Sha256.hmac_hexdigest (b "key")
                        (b "The quick brown fox jumps over the lazy dog")
  = u "f7bc83f430538424b13298e6aa6fb143ef4d59a14946175997479dbc2d1a3cd8".
Proof. vm_compute. reflexivity. Qed.

(** A key longer than a block is hashed first. *)
Example hmac_sha256_long_key :
  Sha256.hmac_hexdigest (repeat x62 100) (repeat x61 200)
  = u "f56f3ea0f81df8a3da338bb2e37f973c072ae0b99fb8fa648849cc658e0ae543".
Proof. vm_compute. reflexivity. Qed.

(** An ASCII text encodes to its own bytes. *)
Lemma utf8_encode_ascii (s : str) :
  Spec.is_ascii s -> utf8_encode s = Ok (Spec.ascii_bytes s).
Proof.
  induction 1 as [|c s Hc _ IH]; [reflexivity|].
  cbn [utf8_encode]. unfold utf8_encode_cp.
  apply N.ltb_lt in Hc. rewrite Hc. cbn [bind]. rewrite IH. reflexivity.
Qed.

Lemma hex_digit_ascii (n : N) : (n < 16)%N -> (Sha256.hex_digit n < 128)%N.
Proof.
  intros H. unfold Sha256.hex_digit. destruct (N.ltb n 10); lia.
Qed.

(** A hexadecimal digest is an ASCII text. *)
Lemma hex_ascii (d : bytes) : Spec.is_ascii (Sha256.hex d).
Proof.
  unfold Spec.is_ascii, Sha256.hex.
  induction d as [|x d IH]; cbn [flat_map app]; [constructor|].
  pose proof (Byte.to_N_bounded x) as Hx. unfold bv.
  constructor; [|constructor; [|exact IH]]; apply hex_digit_ascii.
  - apply N.Div0.div_lt_upper_bound. lia.
  - apply N.mod_lt. discriminate.
Qed.

Lemma string_of_uint_ascii (d : Decimal.uint) :
  Spec.is_ascii (u (NilEmpty.string_of_uint d)).
Proof.
  unfold Spec.is_ascii.
  induction d; cbn; constructor; try assumption; reflexivity.
Qed.

(** The decimal text of an integer is an ASCII text. *)
Lemma str_of_int_ascii (z : Z) : Spec.is_ascii (str_of_int z).
Proof.
  unfold str_of_int, NilEmpty.string_of_int.
  destruct (Z.to_int z) as [d|d].
  - apply string_of_uint_ascii.
  - constructor; [reflexivity|apply string_of_uint_ascii].
Qed.

(** The string the client builds is the canonical string. *)
Lemma canonical_string_eq (request_id : str) (timestamp_ms : Z)
      (user_id message_text : str) :
  u "requestId," ++ request_id ++ u ","
    ++ u "timestamp," ++ str_of_int timestamp_ms ++ u ","
    ++ u "user_id," ++ user_id ++ u "|" ++ message_text ++ u "|"
    ++ str_of_int timestamp_ms
  = Spec.canonical request_id timestamp_ms user_id message_text.
Proof. reflexivity. Qed.

(** C1.  When the secret and the canonical string
    [requestId,{request_id},timestamp,{timestamp_ms},user_id,{identity}|{message_text}|{timestamp_ms}]
    have UTF-8 bytes, the signature is the hexadecimal HMAC-SHA256 of
    the canonical bytes under the key made of the bytes of the
    hexadecimal text of HMAC-SHA256 of the decimal text of
    [floor(timestamp_ms / 300000)] under the secret bytes; when one of
    the two cannot be encoded no signature is produced.  For the secret
    "junjie" and a sample request the signature is the one the standard
    HMAC gives. *)
Theorem generate_signature_double_hmac :
  (forall (self : ZAIClient) (message_text request_id : str)
          (timestamp_ms : Z) (user_id : str)
          (secret_bytes canonical_bytes : bytes),
      utf8_encode (signing_secret self) = Ok secret_bytes ->
      utf8_encode
        (Spec.canonical request_id timestamp_ms user_id message_text)
      = Ok canonical_bytes ->
      _generate_signature self message_text request_id timestamp_ms user_id
      = Ok (Spec.signature secret_bytes canonical_bytes timestamp_ms)) /\
  (forall (self : ZAIClient) (message_text request_id : str)
          (timestamp_ms : Z) (user_id : str) (e : exn),
      utf8_encode (signing_secret self) = Raise e \/
      utf8_encode
        (Spec.canonical request_id timestamp_ms user_id message_text)
      = Raise e ->
      exists e',
        _generate_signature self message_text request_id timestamp_ms user_id
        = Raise e') /\
  _generate_signature Sample.client (u "hello") (u "req-1")
                      1700000000123%Z (u "guest")
  = Ok (u "1efc81540a1382425607e2751f23c6f1cc98f468725e5ae4a500a0e3a83dd335").
Proof.
  split; [|split].
  - intros self message_text request_id timestamp_ms user_id
           secret_bytes canonical_bytes Hs Hc.
    unfold _generate_signature. rewrite Hs. cbn [bind].
    rewrite (utf8_encode_ascii (str_of_int_ascii _)). cbn [bind].
    unfold Sha256.hmac_hexdigest.
    rewrite (utf8_encode_ascii (hex_ascii _)). cbn [bind].
    rewrite canonical_string_eq, Hc. reflexivity.
  - intros self message_text request_id timestamp_ms user_id e H.
    unfold _generate_signature.
    destruct (utf8_encode (signing_secret self)) as [sb|e0] eqn:Hs;
      cbn [bind]; [|eexists; reflexivity].
    destruct H as [H|H]; [discriminate|].
    rewrite (utf8_encode_ascii (str_of_int_ascii _)). cbn [bind].
    unfold Sha256.hmac_hexdigest.
    rewrite (utf8_encode_ascii (hex_ascii _)). cbn [bind].
    rewrite canonical_string_eq, H. eexists; reflexivity.
  - vm_compute. reflexivity.
Qed.

Lemma generate_signature_double_hmac_witness :
  _generate_signature Sample.client
                      [104; 233; 108; 108; 111; 32; 20320; 22909]%N
                      (u "req-1") 1700000000123%Z (u "guest")
  = Ok (u "c8da99116880201f125de8c7a6d0ea12606b704f3e6ead28819c3336bdb6499b").
Proof.
  rewrite (proj1 generate_signature_double_hmac Sample.client
                 [104; 233; 108; 108; 111; 32; 20320; 22909]%N
                 (u "req-1") 1700000000123%Z (u "guest")
                 (b "junjie")
                 (b "requestId,req-1,timestamp,1700000000123,user_id,guest|h"
                    ++ [xc3; xa9]
                    ++ b "llo " ++ [xe4; xbd; xa0; xe5; xa5; xbd]
                    ++ b "|1700000000123")
                 eq_refl eq_refl).
  vm_compute. reflexivity.
Defined.

(** A lone surrogate in the message has no UTF-8 bytes: no signature. *)
Lemma signature_of_surrogate_raises :
  _generate_signature Sample.client [55296%N] (u "req-1")
                      1700000000123%Z (u "guest")
  = Raise UnicodeEncodeError.
Proof. vm_compute. reflexivity. Qed.

(** ** Request Assembler *)

Lemma mapping_get_find (m : list (str * str)) (model default : str) :
  mapping_get m model default
  = match find (fun kv => str_eqb model (fst kv)) m with
    | Some kv => snd kv
    | None => default
    end.
Proof.
  induction m as [|[k v] m IH]; [reflexivity|].
  cbn [mapping_get find fst]. destruct (str_eqb model k); [reflexivity|].
  exact IH.
Qed.

Lemma mapping_get_upstream (model : str) :
  mapping_get MODEL_MAPPING model (u "0727-360B-API") = Spec.upstream_id model.
Proof. apply mapping_get_find. Qed.

(** A name of the mapping resolves to its mapped id. *)
Lemma upstream_id_mapped (model id : str) :
  In (model, id) MODEL_MAPPING -> Spec.upstream_id model = id.
Proof.
  unfold MODEL_MAPPING. cbn [In].
  intros H.
  repeat (destruct H as [H|H];
          [injection H as <- <-; vm_compute; reflexivity|]).
  contradiction.
Qed.

(** A name outside the mapping resolves to the default id. *)
Lemma upstream_id_default (model : str) :
  (forall id, ~ In (model, id) MODEL_MAPPING) ->
  Spec.upstream_id model = Spec.default_upstream_id.
Proof.
  intros H. unfold Spec.upstream_id.
  assert (G : forall m : list (str * str),
             (forall id, ~ In (model, id) m) ->
             find (fun kv => str_eqb model (fst kv)) m = None).
  { induction m as [|[k v] m IH]; intros Hm; [reflexivity|].
    cbn [find fst]. destruct (str_eqb model k) eqn:E.
    - apply str_eqb_eq in E. subst k. exfalso. apply (Hm v). now left.
    - apply IH. intros id Hin. apply (Hm id). now right. }
  now rewrite (G _ H).
Qed.

Lemma dict_item_contains (d : dict) (k : str) :
  dict_contains d k = true -> exists v, dict_item d k = Ok v.
Proof.
  unfold dict_contains, dict_item.
  destruct (dict_lookup d k) as [v|]; [|discriminate].
  intros _. now exists v.
Qed.

Section RequestBody.

Context {rt : PyRuntime}.

Variables (self : ZAIClient) (env : BodyEnv) (messages : pyobj).
Variables (model chat_id : str) (kwargs : dict).

(** The body [_build_request_body] returns: it is always built; its
    model fields hold the resolved provider id; it has every fixed
    field; and it has a [tools] field exactly when tool definitions were
    supplied and the model is not a thinking model. *)
Lemma build_request_body_shape :
  exists body,
    _build_request_body self env messages model chat_id kwargs
    = Ok (PDict body) /\
    dict_lookup body (u "model") = Some (PStr (Spec.upstream_id model)) /\
    dict_lookup body (u "model_item")
    = Some (PDict [ (u "id", PStr (Spec.upstream_id model));
                    (u "name", PStr model);
                    (u "owned_by", PStr (u "z.ai")) ]) /\
    Forall (fun k => dict_contains body k = true) Spec.body_fields /\
    dict_contains body (u "tools")
    = dict_contains kwargs (u "tools") && negb (is_thinking_model model).
Proof.
  unfold _build_request_body. rewrite mapping_get_upstream.
  generalize (Spec.upstream_id model) as mid.
  generalize (is_thinking_model model) as thinking.
  generalize (is_search_model model) as search.
  generalize (contains model (u "4.5")) as v45.
  generalize (dict_get kwargs (u "stream") (PBool true)) as stream.
  intros stream v45 search thinking mid.
  destruct (dict_contains kwargs (u "temperature")) eqn:Ht;
    [apply dict_item_contains in Ht as [t ->]|];
    (destruct (dict_contains kwargs (u "max_tokens")) eqn:Hm;
     [apply dict_item_contains in Hm as [m ->]|]);
    (destruct (dict_contains kwargs (u "tools")) eqn:Ho;
     [apply dict_item_contains in Ho as [o ->]|]);
    destruct thinking;
    (match goal with
     | |- exists body, ?X = _ /\ _ =>
       let r := eval vm_compute in X in
       replace X with r by (vm_compute; reflexivity)
     end);
    (eexists; split; [reflexivity|]);
    vm_compute; repeat split; repeat constructor.
Qed.

(** C7.  For a model name whose lower-case form contains "thinking",
    whatever the options, the body is built and has no [tools] field,
    also when the options hold tool definitions. *)
Theorem thinking_body_has_no_tools :
  is_thinking_model model = true ->
  exists body,
    _build_request_body self env messages model chat_id kwargs
    = Ok (PDict body) /\
    dict_contains body (u "tools") = false /\
    dict_lookup body (u "tools") = None.
Proof.
  intros Hth.
  destruct build_request_body_shape as (body & Hb & _ & _ & _ & Htools).
  exists body. split; [exact Hb|].
  rewrite Hth, andb_false_r in Htools. split; [exact Htools|].
  unfold dict_contains in Htools.
  destruct (dict_lookup body (u "tools")); [discriminate|reflexivity].
Qed.

(** C8.  For every model name the body is built, never an exception:
    its [model] field and the [id] of its [model_item] hold the provider
    id the name resolves to, every fixed field is present, a name of the
    static mapping resolves to its mapped id and every other name to the
    default id "0727-360B-API". *)
Theorem model_id_resolves_with_fallback :
  (exists body,
      _build_request_body self env messages model chat_id kwargs
      = Ok (PDict body) /\
      dict_lookup body (u "model") = Some (PStr (Spec.upstream_id model)) /\
      dict_lookup body (u "model_item")
      = Some (PDict [ (u "id", PStr (Spec.upstream_id model));
                      (u "name", PStr model);
                      (u "owned_by", PStr (u "z.ai")) ]) /\
      Forall (fun k => dict_contains body k = true) Spec.body_fields) /\
  (forall id, In (model, id) MODEL_MAPPING -> Spec.upstream_id model = id) /\
  ((forall id, ~ In (model, id) MODEL_MAPPING) ->
   Spec.upstream_id model = u "0727-360B-API").
Proof.
  split; [|split].
  - destruct build_request_body_shape as (body & Hb & Hm & Hi & Hf & _).
    exists body. repeat split; assumption.
  - intros id. apply upstream_id_mapped.
  - apply upstream_id_default.
Qed.

End RequestBody.

(** ** Identity Extractor *)

(** The padding the client computes is the padding of the specification:
    [-len % 4] is [(4 - len % 4) % 4]. *)
Lemma padding_eq (n : nat) :
  str_mul 61 ((- Z.of_nat n) mod 4) = repeat 61%N ((4 - n mod 4) mod 4).
Proof.
  unfold str_mul. f_equal.
  pose proof (Nat.div_mod_eq n 4) as Hn.
  pose proof (Nat.mod_upper_bound n 4 ltac:(discriminate)) as Hr.
  remember (n mod 4)%nat as r eqn:Er. remember (n / 4)%nat as k eqn:Ek.
  replace (- Z.of_nat n)%Z with (- Z.of_nat r + (- Z.of_nat k) * 4)%Z by lia.
  rewrite Z.mod_add by lia.
  destruct r as [|[|[|[|r]]]]; try lia; reflexivity.
Qed.

(** *** The decoder on a segment of alphabet characters *)

(** Data characters move the position in the group of four and nothing
    else; the decoding of what follows decides whether the whole is
    rejected. *)
Lemma a2b_loop_data (ds tail : bytes) :
  Forall Spec.is_data ds ->
  forall quad_pos leftchar pads : N,
    (quad_pos < 4)%N ->
    (forall l p, exists e,
          Base64.a2b_loop tail ((quad_pos + N.of_nat (List.length ds)) mod 4)
                          l p = Raise e) ->
    exists e, Base64.a2b_loop (ds ++ tail) quad_pos leftchar pads = Raise e.
Proof.
  induction 1 as [|c ds [Hpad [v Hv]] _ IH];
    intros quad_pos leftchar pads Hq Htail.
  - cbn [app List.length N.of_nat] in *.
    rewrite N.add_0_r, N.mod_small in Htail by assumption. apply Htail.
  - cbn [app Base64.a2b_loop].
    apply N.eqb_neq in Hpad. rewrite Hpad, Hv.
    assert (Hstep : forall q' l' p',
               (q' < 4)%N -> ((quad_pos + 1) mod 4 = q')%N ->
               exists e, Base64.a2b_loop (ds ++ tail) q' l' p' = Raise e).
    { intros q' l' p' Hq' Hmod. apply IH; [assumption|].
      intros l p. rewrite <- Hmod.
      rewrite N.Div0.add_mod_idemp_l.
      replace (quad_pos + 1 + N.of_nat (List.length ds))%N
        with (quad_pos + N.of_nat (List.length (c :: ds)))%N
        by (cbn [List.length]; lia).
      apply Htail. }
    assert (Hcases : quad_pos = 0%N \/ quad_pos = 1%N \/ quad_pos = 2%N
                     \/ quad_pos = 3%N) by lia.
    destruct Hcases as [-> | [-> | [-> | ->]]]; cbn [N.eqb Pos.eqb].
    + apply Hstep; [lia|reflexivity].
    + destruct (Hstep 2%N (N.land v 15) 0%N) as [e He]; [lia|reflexivity|].
      exists e. rewrite He. reflexivity.
    + destruct (Hstep 3%N (N.land v 3) 0%N) as [e He]; [lia|reflexivity|].
      exists e. rewrite He. reflexivity.
    + destruct (Hstep 0%N 0%N 0%N) as [e He]; [lia|reflexivity|].
      exists e. rewrite He. reflexivity.
Qed.

Lemma bv_byte_of_N (n : N) : (n < 256)%N -> bv (byte_of_N n) = n.
Proof.
  intros H. unfold bv, byte_of_N. rewrite N.mod_small by assumption.
  destruct (Byte.of_N n) as [x|] eqn:E.
  - now apply Byte.to_of_N.
  - apply Byte.of_N_None_iff in E. lia.
Qed.

Lemma b64url_char_ascii (c : N) :
  Spec.is_b64url_char c = true -> (c < 128)%N.
Proof.
  unfold Spec.is_b64url_char.
  rewrite !orb_true_iff, !andb_true_iff, !N.leb_le, !N.eqb_eq. lia.
Qed.

(** Every character of the base64url alphabet is data for the decoder
    after the translation to the standard alphabet. *)
Lemma b64url_char_data (c : N) :
  Spec.is_b64url_char c = true ->
  Spec.is_data (Base64.urlsafe_translate (byte_of_N c)).
Proof.
  intros H. pose proof (b64url_char_ascii c H) as Hc.
  assert (Hall : forallb
                   (fun n =>
                      let c := N.of_nat n in
                      implb (Spec.is_b64url_char c)
                            (let x := Base64.urlsafe_translate (byte_of_N c) in
                             negb (N.eqb (bv x) 61) &&
                             match Base64.table_a2b (bv x) with
                             | Some _ => true
                             | None => false
                             end))
                   (seq 0 128) = true) by (vm_compute; reflexivity).
  rewrite forallb_forall in Hall.
  specialize (Hall (N.to_nat c)). rewrite N2Nat.id in Hall.
  cbv zeta in Hall. rewrite H in Hall. cbn [implb] in Hall.
  assert (Hin : In (N.to_nat c) (seq 0 128)) by (apply in_seq; lia).
  apply Hall in Hin. apply andb_true_iff in Hin as [Hne Ht].
  split.
  - apply N.eqb_neq. now apply negb_true_iff.
  - destruct (Base64.table_a2b _) as [v|]; [now exists v|discriminate].
Qed.

Lemma ascii_encode_ascii (s : str) :
  Spec.is_ascii s -> ascii_encode s = Ok (map byte_of_N s).
Proof.
  induction 1 as [|c s Hc _ IH]; [reflexivity|].
  cbn [ascii_encode map]. apply N.ltb_lt in Hc. rewrite Hc, IH. reflexivity.
Qed.

(** A segment of alphabet characters whose length is 1 modulo 4 is
    rejected by the decoder, with its padding. *)
Lemma b64decode_rejects_length_1_mod_4 (segment : str) :
  Forall (fun c => Spec.is_b64url_char c = true) segment ->
  (List.length segment mod 4 = 1)%nat ->
  exists e,
    Base64.urlsafe_b64decode (segment ++ Spec.padding_of segment) = Raise e.
Proof.
  intros Hall Hlen. unfold Spec.padding_of. rewrite Hlen.
  change ((4 - 1) mod 4)%nat with 3%nat. cbn [repeat].
  unfold Base64.urlsafe_b64decode.
  rewrite ascii_encode_ascii.
  2:{ apply Forall_app. split.
      - eapply Forall_impl; [|exact Hall]. apply b64url_char_ascii.
      - repeat constructor. }
  rewrite !map_app. unfold Base64.a2b_base64.
  apply a2b_loop_data.
  - rewrite !Forall_map. eapply Forall_impl; [|exact Hall].
    apply b64url_char_data.
  - lia.
  - intros l p. rewrite !length_map, N.add_0_l.
    replace (N.of_nat (List.length segment) mod 4)%N with 1%N.
    + eexists. reflexivity.
    + change 4%N with (N.of_nat 4). rewrite <- Nat2N.inj_mod, Hlen.
      reflexivity.
Qed.

Section Identity.

Context {rt : PyRuntime}.
Variable self : ZAIClient.

Lemma claim_loop_dict (d : dict) (keys : list str) :
  claim_loop (PDict d) keys
  = Ok match Spec.first_truthy d keys with
       | Some v => py_str v
       | None => Spec.guest
       end.
Proof.
  induction keys as [|k keys IH]; [reflexivity|].
  cbn [claim_loop Spec.first_truthy py_get bind].
  rewrite dict_get_lookup.
  destruct (dict_lookup d k) as [v|].
  - destruct (truthy v); [reflexivity|exact IH].
  - cbn [truthy]. exact IH.
Qed.

Lemma claim_loop_not_dict (payload : pyobj) :
  (forall d, payload <> PDict d) ->
  claim_loop payload Spec.claim_keys = Raise AttributeError.
Proof.
  intros H. destruct payload; try reflexivity.
  exfalso. eapply H. reflexivity.
Qed.

(** The body of the [try], with the padded segment of the
    specification. *)
Lemma extract_body_eq (token : str) :
  extract_body token
  = if Nat.ltb (List.length (split token 46)) 2 then Ok Spec.guest
    else bind (Base64.urlsafe_b64decode (Spec.padded_segment token))
              (fun payload_bytes =>
                 bind (Json.loads (utf8_decode_ignore payload_bytes))
                      (fun payload => claim_loop payload Spec.claim_keys)).
Proof.
  unfold extract_body, Spec.padded_segment, Spec.payload_segment.
  rewrite padding_eq. reflexivity.
Qed.

(** Identity extraction never raises. *)
Lemma extract_total (token : str) :
  exists s, _extract_user_id_from_token self token = Ok s.
Proof.
  unfold _extract_user_id_from_token, try_except.
  destruct (extract_body token) as [s|e]; eexists; reflexivity.
Qed.

(** C5, as amended.  Identity extraction returns a string and never
    raises, for every string.  It returns "guest" when the token has
    fewer than two dot-separated segments, when the decoder rejects the
    padded second segment, when the decoded text is not JSON and when it
    is JSON but not an object.  The decoder rejects, in particular,
    every segment made of characters of the base64url alphabet whose
    length is 1 modulo 4. *)
Theorem extract_user_id_total (token : str) :
  (exists s, _extract_user_id_from_token self token = Ok s) /\
  ((List.length (split token 46) < 2)%nat ->
   _extract_user_id_from_token self token = Ok Spec.guest) /\
  (forall e,
      Base64.urlsafe_b64decode (Spec.padded_segment token) = Raise e ->
      _extract_user_id_from_token self token = Ok Spec.guest) /\
  (forall payload_bytes e,
      Base64.urlsafe_b64decode (Spec.padded_segment token)
      = Ok payload_bytes ->
      Json.loads (utf8_decode_ignore payload_bytes) = Raise e ->
      _extract_user_id_from_token self token = Ok Spec.guest) /\
  (forall payload_bytes payload,
      Base64.urlsafe_b64decode (Spec.padded_segment token)
      = Ok payload_bytes ->
      Json.loads (utf8_decode_ignore payload_bytes) = Ok payload ->
      (forall d, payload <> PDict d) ->
      _extract_user_id_from_token self token = Ok Spec.guest) /\
  (Forall (fun c => Spec.is_b64url_char c = true)
          (Spec.payload_segment token) ->
   (List.length (Spec.payload_segment token) mod 4 = 1)%nat ->
   _extract_user_id_from_token self token = Ok Spec.guest).
Proof.
  split; [apply extract_total|].
  unfold _extract_user_id_from_token, try_except.
  rewrite extract_body_eq.
  destruct (Nat.ltb (List.length (split token 46)) 2) eqn:Hlen.
  { repeat split; reflexivity. }
  apply Nat.ltb_ge in Hlen.
  split; [intros H; lia|].
  split; [intros e ->; reflexivity|].
  split; [intros payload_bytes e -> He; cbn [bind]; rewrite He; reflexivity|].
  split.
  - intros payload_bytes payload -> Hp Hnd. cbn [bind]. rewrite Hp.
    cbn [bind]. rewrite (claim_loop_not_dict Hnd). reflexivity.
  - intros Hall Hmod.
    destruct (b64decode_rejects_length_1_mod_4 Hall Hmod) as [e He].
    unfold Spec.padded_segment. rewrite He. reflexivity.
Qed.

(** C6, as amended.  When the padded second segment decodes to a JSON
    object, identity extraction returns the first value among the keys
    [id], [user_id], [uid], [sub] that is present and true in a
    condition (not [None], [False], zero or empty), coerced to a string,
    and "guest" when no key has such a value. *)
Theorem extract_user_id_first_truthy
        (token : str) (payload_bytes : bytes) (d : dict) :
  (2 <= List.length (split token 46))%nat ->
  Base64.urlsafe_b64decode (Spec.padded_segment token) = Ok payload_bytes ->
  Json.loads (utf8_decode_ignore payload_bytes) = Ok (PDict d) ->
  _extract_user_id_from_token self token
  = Ok match Spec.first_truthy d Spec.claim_keys with
       | Some v => py_str v
       | None => Spec.guest
       end.
Proof.
  intros Hlen Hb Hj.
  unfold _extract_user_id_from_token, try_except.
  rewrite extract_body_eq.
  apply Nat.ltb_ge in Hlen. rewrite Hlen, Hb. cbn [bind]. rewrite Hj.
  cbn [bind]. rewrite claim_loop_dict. reflexivity.
Qed.

End Identity.

(** *** Evaluation *)

Lemma extract_user_id_total_witness :
  @_extract_user_id_from_token Sample.ascii_runtime Sample.client
                               (u "x.abcde")
  = Ok Spec.guest.
Proof.
  apply (@extract_user_id_total Sample.ascii_runtime Sample.client
                                (u "x.abcde")).
  - vm_compute. repeat constructor.
  - reflexivity.
Defined.

(** C5, as stated, fails: the second segment of this token is not valid
    base64 (it holds two characters outside the alphabet) and its length
    is 1 modulo 4, yet the decoder passes over the two characters and
    the identity is "1", not "guest". *)
Lemma invalid_segment_still_decodes :
  (List.length (Spec.payload_segment (u "x.eyJpZCI6MX0!!")) mod 4 = 1)%nat /\
  forallb Spec.is_b64url_char (Spec.payload_segment (u "x.eyJpZCI6MX0!!"))
  = false /\
  Base64.urlsafe_b64decode (Spec.padded_segment (u "x.eyJpZCI6MX0!!"))
  = Ok (qb "{'id':1}") /\
  @_extract_user_id_from_token Sample.ascii_runtime Sample.client
                               (u "x.eyJpZCI6MX0!!")
  = Ok (u "1") /\
  u "1" <> Spec.guest.
Proof.
  repeat split; try (vm_compute; reflexivity). vm_compute. discriminate.
Qed.

Lemma extract_user_id_first_truthy_witness :
  @_extract_user_id_from_token Sample.ascii_runtime Sample.client
                               (u "h.eyJpZCI6IiIsInVpZCI6N30.s")
  = Ok (u "7").
Proof.
  rewrite (@extract_user_id_first_truthy
             Sample.ascii_runtime Sample.client
             (u "h.eyJpZCI6IiIsInVpZCI6N30.s")
             (qb "{'id':'','uid':7}")
             [(u "id", PStr []); (u "uid", PInt 7)]).
  - reflexivity.
  - vm_compute. lia.
  - vm_compute. reflexivity.
  - vm_compute. reflexivity.
Defined.

(** C6, as stated, fails: the payload of this token is
    [{"id":0,"sub":"bob"}]; the first key present is [id], with the
    value 0, whose string is "0"; the identity returned is "bob". *)
Lemma falsy_claim_is_passed_over :
  exists (payload_bytes : bytes) (d : dict),
    Base64.urlsafe_b64decode
      (Spec.padded_segment (u "h.eyJpZCI6MCwic3ViIjoiYm9iIn0."))
    = Ok payload_bytes /\
    Json.loads (utf8_decode_ignore payload_bytes) = Ok (PDict d) /\
    Spec.first_present d Spec.claim_keys = Some (PInt 0) /\
    @py_str Sample.ascii_runtime (PInt 0) = u "0" /\
    @_extract_user_id_from_token Sample.ascii_runtime Sample.client
                                 (u "h.eyJpZCI6MCwic3ViIjoiYm9iIn0.")
    = Ok (u "bob") /\
    u "bob" <> u "0".
Proof.
  exists (qb "{'id':0,'sub':'bob'}"),
         [(u "id", PInt 0); (u "sub", PStr (u "bob"))].
  repeat split; try (vm_compute; reflexivity). vm_compute. discriminate.
Qed.

Lemma thinking_body_has_no_tools_witness :
  exists body,
    @_build_request_body
      Sample.ascii_runtime Sample.client Sample.env
      (PList [PDict [(u "role", PStr (u "user"));
                     (u "content", PStr (u "hi"))]])
      (u "GLM-4.5-Thinking") (u "chat-1")
      [(u "tools", PList [PDict [(u "type", PStr (u "function"))]])]
    = Ok (PDict body) /\
    dict_contains body (u "tools") = false /\
    dict_lookup body (u "tools") = None.
Proof.
  apply (@thinking_body_has_no_tools
           Sample.ascii_runtime Sample.client Sample.env
           (PList [PDict [(u "role", PStr (u "user"));
                          (u "content", PStr (u "hi"))]])
           (u "GLM-4.5-Thinking") (u "chat-1")
           [(u "tools", PList [PDict [(u "type", PStr (u "function"))]])]).
  vm_compute. reflexivity.
Defined.

(** A model that is not a thinking model keeps the tool definitions. *)
Lemma plain_body_keeps_tools :
  exists body,
    @_build_request_body
      Sample.ascii_runtime Sample.client Sample.env (PList [])
      (u "GLM-4.6") (u "chat-1") [(u "tools", PList [PNone])]
    = Ok (PDict body) /\
    dict_lookup body (u "tools") = Some (PList [PNone]).
Proof. eexists. split; vm_compute; reflexivity. Qed.

Lemma model_id_resolves_with_fallback_witness :
  Spec.upstream_id (u "GLM-4.5-Air") = u "0727-106B-API" /\
  Spec.upstream_id (u "gpt-4") = u "0727-360B-API".
Proof.
  split.
  - apply (proj1 (proj2 (@model_id_resolves_with_fallback
                           Sample.ascii_runtime Sample.client Sample.env
                           (PList []) (u "GLM-4.5-Air") (u "chat-1") []))).
    vm_compute. tauto.
  - apply (proj2 (proj2 (@model_id_resolves_with_fallback
                           Sample.ascii_runtime Sample.client Sample.env
                           (PList []) (u "gpt-4") (u "chat-1") []))).
    intros id H. vm_compute in H.
    repeat (destruct H as [H|H]; [discriminate H|]). exact H.
Defined.

(* ================================================================== *)
(** * Further properties of the client *)
(* ================================================================== *)

(** ** Stream Decoder and Response Aggregator *)

Section Failure.

Variable post : str -> dict -> dict -> exc Response.
Variables (self : ZAIClient) (url : str) (headers body : dict).

(** X1.  On a status other than 200 the generator yields nothing and
    raises the exception that names the status, whatever lines the
    response carries; non-streaming aggregation then raises the same
    exception instead of returning a result. *)
Theorem failure_status_raises (response response' : Response) :
  post url headers body = Ok response ->
  post url headers (dict_set body (u "stream") (PBool true)) = Ok response' ->
  status_code response <> 200%Z ->
  status_code response' <> 200%Z ->
  _stream_request post self url headers body
  = Gen [] (Some (request_failed (status_code response))) /\
  _non_stream_request post self url headers body
  = Raise (request_failed (status_code response')).
Proof.
  intros Hp Hp' Hs Hs'. apply Z.eqb_neq in Hs, Hs'.
  unfold _non_stream_request, _stream_request.
  rewrite Hp, Hp', Hs, Hs'. split; reflexivity.
Qed.

(** X2.  After a success status the generator yields exactly one unit
    for every line that is not blank, in the order of the lines: no such
    line is dropped or repeated. *)
Theorem one_unit_per_nonblank_line (response : Response) :
  post url headers body = Ok response ->
  status_code response = 200%Z ->
  let nonblank :=
      filter (fun line => negb (Nat.eqb (List.length line) 0))
             (iter_lines response) in
  List.length (yields (_stream_request post self url headers body))
  = List.length nonblank /\
  Forall2 (fun line unit => Spec.line_units line = [unit])
          nonblank
          (yields (_stream_request post self url headers body)).
Proof.
  intros Hp Hs nonblank. subst nonblank.
  rewrite (@stream_request_ok post self _ _ _ _ Hp Hs). cbn [yields].
  induction (iter_lines response) as [|line rest [IHlen IH]].
  - split; [reflexivity|constructor].
  - cbn [flat_map filter].
    destruct line as [|x line]; cbn [List.length Nat.eqb negb].
    + split; assumption.
    + replace (Spec.line_units (x :: line))
        with [hd [] (Spec.line_units (x :: line))]
        by (unfold Spec.line_units;
            destruct (utf8_decode (x :: line)); reflexivity).
      cbn [app List.length]. split; [now rewrite IHlen|].
      constructor; [|exact IH].
      unfold Spec.line_units.
      destruct (utf8_decode (x :: line)); reflexivity.
Qed.

End Failure.

Lemma failure_status_raises_witness :
  _stream_request
    (Sample.answer {| status_code := 401; iter_lines := [b "data: x"] |})
    Sample.client [] [] []
  = Gen [] (Some (request_failed 401)) /\
  _non_stream_request
    (Sample.answer {| status_code := 401; iter_lines := [b "data: x"] |})
    Sample.client [] [] []
  = Raise (request_failed 401).
Proof.
  apply (@failure_status_raises
           (Sample.answer {| status_code := 401;
                             iter_lines := [b "data: x"] |})
           Sample.client [] [] []
           {| status_code := 401; iter_lines := [b "data: x"] |}
           {| status_code := 401; iter_lines := [b "data: x"] |});
    try reflexivity; discriminate.
Defined.

Lemma one_unit_per_nonblank_line_witness :
  List.length
    (yields (_stream_request
               (Sample.answer (Sample.ok_response [b "a"; []; [xff]; []]))
               Sample.client [] [] []))
  = 2%nat.
Proof.
  apply (@one_unit_per_nonblank_line
           (Sample.answer (Sample.ok_response [b "a"; []; [xff]; []]))
           Sample.client [] [] []
           (Sample.ok_response [b "a"; []; [xff]; []]));
    reflexivity.
Defined.

(** ** UTF-8 round trip *)

Ltac decide_tests :=
  repeat match goal with
         | |- context [N.ltb ?a ?c] =>
           first [ replace (N.ltb a c) with true
                     by (symmetry; apply N.ltb_lt; lia)
                 | replace (N.ltb a c) with false
                     by (symmetry; apply N.ltb_ge; lia) ]
         | |- context [N.leb ?a ?c] =>
           first [ replace (N.leb a c) with true
                     by (symmetry; apply N.leb_le; lia)
                 | replace (N.leb a c) with false
                     by (symmetry; apply N.leb_gt; lia) ]
         | |- context [N.eqb ?a ?c] =>
           first [ replace (N.eqb a c) with true
                     by (symmetry; apply N.eqb_eq; lia)
                 | replace (N.eqb a c) with false
                     by (symmetry; apply N.eqb_neq; lia) ]
         end.

Ltac split_tests :=
  repeat match goal with
         | |- context [N.eqb ?a ?c] =>
           let E := fresh "E" in
           destruct (N.eqb a c) eqn:E;
           [apply N.eqb_eq in E | apply N.eqb_neq in E];
           decide_tests
         end;
  cbn [andb].

Lemma Ok_inj {A} (x y : A) : Ok x = Ok y -> x = y.
Proof. now intros [= ->]. Qed.

Lemma utf8_decode_cons (b0 : byte) (t0 : bytes) :
  utf8_decode (b0 :: t0)
  = if N.ltb (bv b0) 128 then fmap (cons (bv b0)) (utf8_decode t0)
    else if N.ltb (bv b0) 194 then Raise UnicodeDecodeError
    else if N.ltb (bv b0) 224 then
      match t0 with
      | b1 :: t1 =>
        if is_cont b1
        then fmap (cons ((bv b0 - 192) * 64 + cbits b1)%N) (utf8_decode t1)
        else Raise UnicodeDecodeError
      | [] => Raise UnicodeDecodeError
      end
    else if N.ltb (bv b0) 240 then
      match t0 with
      | b1 :: b2 :: t2 =>
        if ok2_of3 b0 b1 && is_cont b2
        then fmap (cons ((bv b0 - 224) * 4096 + cbits b1 * 64 + cbits b2)%N)
                  (utf8_decode t2)
        else Raise UnicodeDecodeError
      | _ => Raise UnicodeDecodeError
      end
    else if N.ltb (bv b0) 245 then
      match t0 with
      | b1 :: b2 :: b3 :: t3 =>
        if ok2_of4 b0 b1 && is_cont b2 && is_cont b3
        then fmap (cons ((bv b0 - 240) * 262144 + cbits b1 * 4096
                         + cbits b2 * 64 + cbits b3)%N)
                  (utf8_decode t3)
        else Raise UnicodeDecodeError
      | _ => Raise UnicodeDecodeError
      end
    else Raise UnicodeDecodeError.
Proof. reflexivity. Qed.

Lemma utf8_decode_encode_cp (c : N) (bc rest : bytes) :
  utf8_encode_cp c = Ok bc ->
  utf8_decode (bc ++ rest) = fmap (cons c) (utf8_decode rest).
Proof.
  unfold utf8_encode_cp.
  pose proof (N.div_mod c 64 ltac:(discriminate)) as D1.
  pose proof (N.mod_lt c 64 ltac:(discriminate)) as M1.
  pose proof (N.div_mod (c / 64) 64 ltac:(discriminate)) as D2.
  pose proof (N.mod_lt (c / 64) 64 ltac:(discriminate)) as M2.
  pose proof (N.div_mod (c / 64 / 64) 64 ltac:(discriminate)) as D3.
  pose proof (N.mod_lt (c / 64 / 64) 64 ltac:(discriminate)) as M3.
  replace (c / 4096)%N with (c / 64 / 64)%N
    by (rewrite N.Div0.div_div; reflexivity).
  replace (c / 262144)%N with (c / 64 / 64 / 64)%N
    by (rewrite !N.Div0.div_div; reflexivity).
  replace ((c / 64 / 64) mod 64)%N with ((c / 64 / 64) mod 64)%N in * by reflexivity.
  remember (c mod 64)%N as r0. remember (c / 64)%N as q1.
  remember (q1 mod 64)%N as r1. remember (q1 / 64)%N as q2.
  remember (q2 mod 64)%N as r2. remember (q2 / 64)%N as q3.
  destruct (N.ltb c 128) eqn:H1.
  { intros H; apply Ok_inj in H; subst bc. unfold app. rewrite utf8_decode_cons; cbv beta iota.
    apply N.ltb_lt in H1.
    rewrite bv_byte_of_N by lia. decide_tests. reflexivity. }
  apply N.ltb_ge in H1.
  destruct (N.ltb c 2048) eqn:H2.
  { intros H; apply Ok_inj in H; subst bc. apply N.ltb_lt in H2.
    unfold app. rewrite utf8_decode_cons; cbv beta iota. unfold is_cont, cbits.
    rewrite !bv_byte_of_N by lia. decide_tests. cbn [andb].
    do 2 f_equal. lia. }
  apply N.ltb_ge in H2.
  destruct (N.leb 55296 c && N.leb c 57343) eqn:H3; [discriminate|].
  apply andb_false_iff in H3.
  rewrite N.leb_gt, N.leb_gt in H3.
  destruct (N.ltb c 65536) eqn:H4.
  { intros H; apply Ok_inj in H; subst bc. apply N.ltb_lt in H4.
    unfold app. rewrite utf8_decode_cons; cbv beta iota. unfold ok2_of3, is_cont, cbits.
    rewrite !bv_byte_of_N by lia. decide_tests. split_tests; do 2 f_equal; lia. }
  apply N.ltb_ge in H4.
  destruct (N.ltb c 1114112) eqn:H5; [|discriminate].
  intros H; apply Ok_inj in H; subst bc. apply N.ltb_lt in H5.
  unfold app. rewrite utf8_decode_cons; cbv beta iota. unfold ok2_of4, is_cont, cbits.
  rewrite !bv_byte_of_N by lia. decide_tests. split_tests; do 2 f_equal; lia.
Qed.

(** Decoding undoes encoding. *)
Lemma utf8_decode_encode (s : str) (bs : bytes) :
  utf8_encode s = Ok bs -> utf8_decode bs = Ok s.
Proof.
  revert bs. induction s as [|c s IH]; intros bs; cbn [utf8_encode].
  - intros H. apply Ok_inj in H. subst bs. reflexivity.
  - destruct (utf8_encode_cp c) as [bc|e] eqn:Ec; cbn [bind]; [|discriminate].
    destruct (utf8_encode s) as [rest|e]; cbn [bind]; [|discriminate].
    intros H. apply Ok_inj in H. subst bs.
    rewrite (@utf8_decode_encode_cp c bc rest Ec), (IH rest eq_refl). reflexivity.
Qed.



Section RoundTrip.

Variable post : str -> dict -> dict -> exc Response.
Variables (self : ZAIClient) (url : str) (headers body : dict).

(** X3.  When the lines of a successful response are the UTF-8 bytes of
    texts that are not empty, the generator yields exactly these texts,
    each followed by the line terminator: text outside ASCII comes
    through unchanged. *)
Theorem utf8_lines_round_trip (response : Response) (texts : list str) :
  post url headers body = Ok response ->
  status_code response = 200%Z ->
  Forall2 (fun text line => text <> [] /\ utf8_encode text = Ok line)
          texts (iter_lines response) ->
  _stream_request post self url headers body
  = Gen (map (fun text => text ++ newline) texts) None.
Proof.
  intros Hp Hs H.
  rewrite (@stream_request_ok post self _ _ _ _ Hp Hs). f_equal.
  induction H as [|text line texts lines [Hne He] _ IH]; [reflexivity|].
  cbn [flat_map map]. rewrite IH.
  apply utf8_decode_encode in He. unfold Spec.line_units.
  destruct line as [|x line].
  - cbn in He. apply Ok_inj in He. congruence.
  - rewrite He. reflexivity.
Qed.

End RoundTrip.

Lemma utf8_lines_round_trip_witness :
  _stream_request
    (Sample.answer
       (Sample.ok_response
          [[xe4; xbd; xa0; xe5; xa5; xbd]; [xf0; x9f; x98; x80]]))
    Sample.client [] [] []
  = Gen [[20320; 22909; 10]%N; [128512; 10]%N] None.
Proof.
  apply (@utf8_lines_round_trip
           (Sample.answer
              (Sample.ok_response
                 [[xe4; xbd; xa0; xe5; xa5; xbd]; [xf0; x9f; x98; x80]]))
           Sample.client [] [] []
           (Sample.ok_response
              [[xe4; xbd; xa0; xe5; xa5; xbd]; [xf0; x9f; x98; x80]])
           [[20320; 22909]%N; [128512]%N]);
    try reflexivity.
  repeat constructor; discriminate.
Defined.

(** ** White space *)

Lemma lstrip_app_space (s : str) (c : N) :
  isspace c = true ->
  lstrip (s ++ [c]) = match lstrip s with [] => [] | t => t ++ [c] end.
Proof.
  intros Hc. induction s as [|d s IH]; cbn [app lstrip].
  - now rewrite Hc.
  - destruct (isspace d); [exact IH|reflexivity].
Qed.

(** White space after a text does not change what [strip] returns. *)
Lemma strip_app_space (s : str) (c : N) :
  isspace c = true -> strip (s ++ [c]) = strip s.
Proof.
  intros Hc. unfold strip, rstrip. rewrite (@lstrip_app_space s c Hc).
  destruct (lstrip s) as [|d t] eqn:E; [reflexivity|].
  rewrite rev_app_distr. cbn [rev app lstrip]. rewrite Hc. reflexivity.
Qed.

Lemma startswith_length (s p : str) :
  startswith s p = true -> (List.length p <= List.length s)%nat.
Proof.
  revert s. induction p as [|d p IH]; intros [|c s] H;
    cbn [startswith List.length] in *; try lia; try discriminate.
  apply andb_true_iff in H as [Hc H]. apply IH in H. lia.
Qed.

(** The data part of a frame is the same with and without the line
    terminator the generator appends. *)
Lemma data_part_newline (line : str) :
  startswith line (u "data: ") = true ->
  Spec.data_part (line ++ newline) = Spec.data_part line.
Proof.
  intros H. apply startswith_length in H.
  unfold Spec.data_part. change (List.length (u "data: ")) with 6%nat in H.
  rewrite skipn_app.
  replace (6 - List.length line)%nat with 0%nat by lia.
  cbn [skipn]. apply strip_app_space. reflexivity.
Qed.

Lemma startswith_nil (s : str) : startswith s [] = true.
Proof. destruct s; reflexivity. Qed.

Lemma startswith_data_newline (line : str) :
  startswith (line ++ newline) (u "data: ") = startswith line (u "data: ").
Proof.
  destruct line as [|c0 [|c1 [|c2 [|c3 [|c4 [|c5 line]]]]]];
    cbn [app newline startswith u map list_byte_of_string
         Byte.to_N String.list_ascii_of_string byte_of_ascii];
    try reflexivity;
    repeat match goal with
           | |- context [N.eqb ?a ?c] => destruct (N.eqb a c)
           end; rewrite ?startswith_nil; reflexivity.
Qed.

(** The payload of a frame is the same with and without the line
    terminator. *)
Lemma completion_payload_newline (line : str) :
  Spec.completion_payload (line ++ newline) = Spec.completion_payload line.
Proof.
  unfold Spec.completion_payload. rewrite startswith_data_newline.
  destruct (startswith line (u "data: ")) eqn:H; [|reflexivity].
  now rewrite data_part_newline.
Qed.

(** X4.  The line terminator the generator appends is immaterial to the
    two consumers: on a unit of the stream, [get_content_from_chunk] and
    the aggregation loop do what they do on the bare line. *)
Theorem consumers_ignore_line_terminator
        (self : ZAIClient) (line : str) (acc : str * str) :
  get_content_from_chunk self (line ++ newline)
  = get_content_from_chunk self line /\
  fold_line acc (line ++ newline) = fold_line acc line.
Proof.
  rewrite !get_content_payload, !fold_line_event.
  unfold Spec.frame_event. rewrite completion_payload_newline.
  split; reflexivity.
Qed.

(** The accumulators after the loop: what they held, followed by the
    deltas of the answer frames and of the thinking frames. *)
Lemma fold_line_deltas (lines : list str) (content reasoning : str) :
  fold_left fold_line lines (content, reasoning)
  = (content ++ Chat.answer_deltas lines,
     reasoning ++ Chat.thinking_deltas lines).
Proof.
  revert content reasoning.
  induction lines as [|line rest IH]; intros content reasoning.
  - cbn. now rewrite !app_nil_r.
  - cbn [fold_left Chat.answer_deltas Chat.thinking_deltas].
    rewrite fold_line_event.
    destruct (Spec.frame_event line) as [delta|delta|];
      cbn [Spec.accumulate fst snd]; rewrite IH;
      now rewrite <- ?app_assoc.
Qed.

(** X5.  After a success status the aggregated content is the trimmed
    concatenation of the deltas of the answer frames, in stream order,
    and the reasoning that of the thinking frames: how the two kinds of
    frames are interleaved does not matter. *)
Theorem aggregation_separates_phases
        (post : str -> dict -> dict -> exc Response) (self : ZAIClient)
        (url : str) (headers body : dict) (response : Response) :
  post url headers (dict_set body (u "stream") (PBool true)) = Ok response ->
  status_code response = 200%Z ->
  let units := flat_map Spec.line_units (iter_lines response) in
  _non_stream_request post self url headers body
  = Ok (aggregated (Chat.answer_deltas units, Chat.thinking_deltas units)).
Proof.
  intros Hp Hs units. unfold _non_stream_request.
  rewrite (@stream_request_ok post self _ _ _ _ Hp Hs). cbn [yields raised].
  rewrite fold_line_deltas. reflexivity.
Qed.

Lemma aggregation_separates_phases_witness :
  _non_stream_request
    (Sample.answer
       (Sample.ok_response
          [qb "data: {'type':'chat:completion','data':{'phase':'answer','delta_content':'a'}}";
           qb "data: {'type':'chat:completion','data':{'phase':'thinking','delta_content':'t'}}";
           qb "data: {'type':'chat:completion','data':{'phase':'answer','delta_content':'b'}}"]))
    Sample.client [] [] []
  = Ok (aggregated (u "ab", u "t")).
Proof.
  rewrite (@aggregation_separates_phases
             (Sample.answer
                (Sample.ok_response
                   [qb "data: {'type':'chat:completion','data':{'phase':'answer','delta_content':'a'}}";
                    qb "data: {'type':'chat:completion','data':{'phase':'thinking','delta_content':'t'}}";
                    qb "data: {'type':'chat:completion','data':{'phase':'answer','delta_content':'b'}}"]))
             Sample.client [] [] [] _ eq_refl eq_refl).
  vm_compute. reflexivity.
Defined.

(** X6.  Whenever a line changes an accumulator of the aggregation loop,
    what is appended is a string, and it is what
    [get_content_from_chunk] returns for that line. *)
Theorem aggregated_delta_is_helper_delta
        (self : ZAIClient) (line content reasoning content' reasoning' : str) :
  fold_line (content, reasoning) line = (content', reasoning') ->
  (content', reasoning') <> (content, reasoning) ->
  exists delta,
    get_content_from_chunk self line = Ok (PStr delta) /\
    ((content' = content ++ delta /\ reasoning' = reasoning) \/
     (content' = content /\ reasoning' = reasoning ++ delta)).
Proof.
  rewrite fold_line_event, get_content_payload.
  unfold Spec.frame_event, Spec.delta_content_of.
  assert (Hsame : (content, reasoning) = (content', reasoning') ->
                  (content', reasoning') <> (content, reasoning) ->
                  forall P : Prop, P).
  { intros H1 H2 P. exfalso. apply H2. now symmetry. }
  destruct (Spec.completion_payload line) as [o|];
    [|intros H1 H2; exact (Hsame H1 H2 _)].
  destruct (Spec.data_object o) as [d|];
    [|intros H1 H2; exact (Hsame H1 H2 _)].
  destruct (dict_lookup d (u "phase")) as [[| | | |phase| |]|];
    try (intros H1 H2; exact (Hsame H1 H2 _)).
  destruct (dict_get d (u "delta_content") (PStr [])) as [| | | |delta| |];
    try (intros H1 H2; exact (Hsame H1 H2 _)).
  destruct (str_eqb phase (u "thinking")).
  { cbn [Spec.accumulate fst snd]. intros [= <- <-] _.
    exists delta. split; [reflexivity|]. right. split; reflexivity. }
  destruct (str_eqb phase (u "answer"));
    [|intros H1 H2; exact (Hsame H1 H2 _)].
  cbn [Spec.accumulate fst snd]. intros [= <- <-] _.
  exists delta. split; [reflexivity|]. left. split; reflexivity.
Qed.

Lemma aggregated_delta_is_helper_delta_witness :
  exists delta,
    get_content_from_chunk
      Sample.client
      (q "data: {'type':'chat:completion','data':{'phase':'answer','delta_content':'Hi'}}")
    = Ok (PStr delta) /\
    ((u "Hi" = [] ++ delta /\ @nil N = []) \/
     (u "Hi" = [] /\ [] = [] ++ delta)).
Proof.
  apply (@aggregated_delta_is_helper_delta
           Sample.client
           (q "data: {'type':'chat:completion','data':{'phase':'answer','delta_content':'Hi'}}")
           [] [] (u "Hi") []).
  - vm_compute. reflexivity.
  - vm_compute. discriminate.
Defined.

(** ** The stream flag *)

Lemma dict_set_set (d : dict) (k : str) (v w : pyobj) :
  dict_set (dict_set d k v) k w = dict_set d k w.
Proof.
  induction d as [|[k' v'] d IH]; cbn [dict_set].
  - now rewrite str_eqb_refl.
  - destruct (str_eqb k k') eqn:E; cbn [dict_set]; rewrite E;
      [reflexivity|now rewrite IH].
Qed.

Lemma dict_lookup_set_same (d : dict) (k : str) (v : pyobj) :
  dict_lookup (dict_set d k v) k = Some v.
Proof.
  induction d as [|[k' v'] d IH]; cbn [dict_set dict_lookup].
  - now rewrite str_eqb_refl.
  - destruct (str_eqb k k') eqn:E; cbn [dict_lookup]; rewrite E;
      [reflexivity|exact IH].
Qed.

(** X7.  Non-streaming aggregation never asks the transport for anything
    but a stream: its result does not depend on the [stream] field of the
    body it is given, and it is the same over a transport that refuses
    every body whose [stream] field is not [True]. *)
Theorem non_stream_always_requests_stream
        (post : str -> dict -> dict -> exc Response) (self : ZAIClient)
        (url : str) (headers body : dict) (flag : pyobj) :
  _non_stream_request post self url headers (dict_set body (u "stream") flag)
  = _non_stream_request post self url headers body /\
  _non_stream_request (Chat.only_streams post) self url headers body
  = _non_stream_request post self url headers body.
Proof.
  unfold _non_stream_request, _stream_request, Chat.only_streams.
  rewrite dict_set_set, dict_lookup_set_same. split; reflexivity.
Qed.

(** ** The shape of a signature *)











(** ** Identity: what is read, and what the padding achieves *)

Lemma split_go_segment (sep : N) (s rest cur : str) :
  ~ In sep s ->
  split_go sep cur (s ++ sep :: rest)
  = rev (rev s ++ cur) :: split_go sep [] rest.
Proof.
  revert cur. induction s as [|c s IH]; intros cur Hs; cbn [app split_go].
  - now rewrite N.eqb_refl.
  - destruct (N.eqb c sep) eqn:E.
    + apply N.eqb_eq in E. subst. exfalso. apply Hs. now left.
    + rewrite IH by (intros H; apply Hs; now right).
      cbn [rev]. now rewrite <- app_assoc.
Qed.

Lemma split_go_nonempty (sep : N) (s cur : str) :
  (1 <= List.length (split_go sep cur s))%nat.
Proof.
  revert cur. induction s as [|c s IH]; intros cur; cbn [split_go].
  - cbn. lia.
  - destruct (N.eqb c sep); [cbn; lia|apply IH].
Qed.

Lemma split_go_head (sep : N) (s cur : str) :
  ~ In sep s ->
  exists tail, split_go sep cur (s ++ [sep]) = rev (rev s ++ cur) :: tail.
Proof.
  intros Hs. rewrite (@split_go_segment sep s [] cur Hs).
  eexists. reflexivity.
Qed.

(** The segments of [header.payload.rest]. *)
Lemma split_three (header payload rest : str) :
  ~ In 46%N header -> ~ In 46%N payload ->
  (2 <= List.length (split (header ++ [46%N] ++ payload ++ [46%N] ++ rest)
                           46))%nat /\
  Spec.payload_segment (header ++ [46%N] ++ payload ++ [46%N] ++ rest)
  = payload.
Proof.
  intros Hh Hp. unfold Spec.payload_segment, split.
  cbn [app]. rewrite (@split_go_segment 46 header _ [] Hh).
  rewrite (@split_go_segment 46 payload _ [] Hp).
  cbn [nth List.length]. rewrite !app_nil_r, rev_involutive.
  split; [lia|reflexivity].
Qed.

Section IdentityReads.

Context {rt : PyRuntime}.
Variable self : ZAIClient.

Lemma extract_of_segment (token : str) :
  (2 <= List.length (split token 46))%nat ->
  _extract_user_id_from_token self token
  = try_except
      (bind (Base64.urlsafe_b64decode (Spec.padded_segment token))
            (fun payload_bytes =>
               bind (Json.loads (utf8_decode_ignore payload_bytes))
                    (fun payload => claim_loop payload Spec.claim_keys)))
      (fun _ => Ok (u "guest")).
Proof.
  intros H. unfold _extract_user_id_from_token. rewrite extract_body_eq.
  apply Nat.ltb_ge in H. now rewrite H.
Qed.

(** X9.  Identity extraction reads the second segment of the token and
    nothing else: two tokens with the same payload segment give the same
    identity, whatever their header and signature segments, which are
    never decoded or verified. *)
Theorem identity_ignores_header_and_signature
        (header header' payload signature signature' : str) :
  ~ In 46%N header -> ~ In 46%N header' -> ~ In 46%N payload ->
  _extract_user_id_from_token
    self (header ++ [46%N] ++ payload ++ [46%N] ++ signature)
  = _extract_user_id_from_token
      self (header' ++ [46%N] ++ payload ++ [46%N] ++ signature').
Proof.
  intros Hh Hh' Hp.
  destruct (@split_three header payload signature Hh Hp) as [L1 P1].
  destruct (@split_three header' payload signature' Hh' Hp) as [L2 P2].
  rewrite (extract_of_segment _ L1), (extract_of_segment _ L2).
  unfold Spec.padded_segment. now rewrite P1, P2.
Qed.

End IdentityReads.

Lemma identity_ignores_header_and_signature_witness :
  @_extract_user_id_from_token
    Sample.ascii_runtime Sample.client
    (u "h" ++ [46%N] ++ u "eyJpZCI6NDJ9" ++ [46%N] ++ u "sig.x")
  = @_extract_user_id_from_token
      Sample.ascii_runtime Sample.client
      (u "other" ++ [46%N] ++ u "eyJpZCI6NDJ9" ++ [46%N] ++ []).
Proof.
  apply (@identity_ignores_header_and_signature
           Sample.ascii_runtime Sample.client
           (u "h") (u "other") (u "eyJpZCI6NDJ9") (u "sig.x") []);
    vm_compute; intuition discriminate.
Defined.

(** Data characters followed by the right padding are accepted. *)
Lemma a2b_loop_data_accepts (ds tail : bytes) :
  Forall Spec.is_data ds ->
  forall quad_pos leftchar pads : N,
    (quad_pos < 4)%N ->
    (forall l p, exists bs,
          Base64.a2b_loop tail ((quad_pos + N.of_nat (List.length ds)) mod 4)
                          l p = Ok bs) ->
    exists bs, Base64.a2b_loop (ds ++ tail) quad_pos leftchar pads = Ok bs.
Proof.
  induction 1 as [|c ds [Hpad [v Hv]] _ IH];
    intros quad_pos leftchar pads Hq Htail.
  - cbn [app List.length N.of_nat] in *.
    rewrite N.add_0_r, N.mod_small in Htail by assumption. apply Htail.
  - cbn [app Base64.a2b_loop].
    apply N.eqb_neq in Hpad. rewrite Hpad, Hv.
    assert (Hstep : forall q' l' p',
               (q' < 4)%N -> ((quad_pos + 1) mod 4 = q')%N ->
               exists bs, Base64.a2b_loop (ds ++ tail) q' l' p' = Ok bs).
    { intros q' l' p' Hq' Hmod. apply IH; [assumption|].
      intros l p. rewrite <- Hmod.
      rewrite N.Div0.add_mod_idemp_l.
      replace (quad_pos + 1 + N.of_nat (List.length ds))%N
        with (quad_pos + N.of_nat (List.length (c :: ds)))%N
        by (cbn [List.length]; lia).
      apply Htail. }
    assert (Hcases : quad_pos = 0%N \/ quad_pos = 1%N \/ quad_pos = 2%N
                     \/ quad_pos = 3%N) by lia.
    destruct Hcases as [-> | [-> | [-> | ->]]]; cbn [N.eqb Pos.eqb].
    + apply Hstep; [lia|reflexivity].
    + destruct (Hstep 2%N (N.land v 15) 0%N) as [bs He]; [lia|reflexivity|].
      rewrite He. eexists; reflexivity.
    + destruct (Hstep 3%N (N.land v 3) 0%N) as [bs He]; [lia|reflexivity|].
      rewrite He. eexists; reflexivity.
    + destruct (Hstep 0%N 0%N 0%N) as [bs He]; [lia|reflexivity|].
      rewrite He. eexists; reflexivity.
Qed.

Lemma a2b_loop_pad (s : bytes) (quad_pos leftchar pads : N) :
  Base64.a2b_loop (x3d :: s) quad_pos leftchar pads
  = if N.leb 2 quad_pos then
      if N.leb 4 (quad_pos + (pads + 1)) then Ok []
      else Base64.a2b_loop s quad_pos leftchar (pads + 1)
    else Base64.a2b_loop s quad_pos leftchar pads.
Proof. reflexivity. Qed.

(** X10.  The padding the client adds makes every segment of base64url
    characters decodable unless its length is 1 modulo 4: the decoder
    rejects such a segment with its padding exactly when its length is
    1 modulo 4. *)
Theorem padded_segment_decodes (segment : str) :
  Forall (fun c => Spec.is_b64url_char c = true) segment ->
  ((List.length segment mod 4 <> 1)%nat ->
   exists payload_bytes,
     Base64.urlsafe_b64decode (segment ++ Spec.padding_of segment)
     = Ok payload_bytes) /\
  ((List.length segment mod 4 = 1)%nat ->
   exists e,
     Base64.urlsafe_b64decode (segment ++ Spec.padding_of segment)
     = Raise e).
Proof.
  intros Hall. split; [|apply b64decode_rejects_length_1_mod_4; exact Hall].
  intros Hlen.
  pose proof (Nat.mod_upper_bound (List.length segment) 4
                                  ltac:(discriminate)) as Hr.
  unfold Base64.urlsafe_b64decode.
  rewrite ascii_encode_ascii.
  2:{ apply Forall_app. split.
      - eapply Forall_impl; [|exact Hall]. apply b64url_char_ascii.
      - unfold Spec.padding_of. apply Forall_forall.
        intros c Hc. apply repeat_spec in Hc. subst c. reflexivity. }
  rewrite !map_app. unfold Base64.a2b_base64.
  apply a2b_loop_data_accepts.
  - rewrite !Forall_map. eapply Forall_impl; [|exact Hall].
    apply b64url_char_data.
  - lia.
  - intros l p. rewrite !length_map, N.add_0_l.
    change 4%N with (N.of_nat 4). rewrite <- Nat2N.inj_mod.
    unfold Spec.padding_of.
    remember (List.length segment mod 4)%nat as r eqn:Er.
    destruct r as [|[|[|[|r]]]]; try lia.
    + eexists. reflexivity.
    + change (map Base64.urlsafe_translate
                  (map byte_of_N (repeat 61%N ((4 - 2) mod 4))))
        with [x3d; x3d].
      change (N.of_nat 2) with 2%N.
      rewrite a2b_loop_pad. change (N.leb 2 2) with true. cbv iota.
      destruct (N.leb 4 (2 + (p + 1))); [eexists; reflexivity|].
      rewrite a2b_loop_pad. change (N.leb 2 2) with true. cbv iota.
      replace (N.leb 4 (2 + (p + 1 + 1))) with true
        by (symmetry; apply N.leb_le; lia).
      eexists; reflexivity.
    + change (map Base64.urlsafe_translate
                  (map byte_of_N (repeat 61%N ((4 - 3) mod 4))))
        with [x3d].
      change (N.of_nat 3) with 3%N.
      rewrite a2b_loop_pad. change (N.leb 2 3) with true. cbv iota.
      replace (N.leb 4 (3 + (p + 1))) with true
        by (symmetry; apply N.leb_le; lia).
      eexists; reflexivity.
Qed.

Lemma padded_segment_decodes_witness :
  exists payload_bytes,
    Base64.urlsafe_b64decode (u "eyJpZCI6NDJ9_-A"
                                ++ Spec.padding_of (u "eyJpZCI6NDJ9_-A"))
    = Ok payload_bytes.
Proof.
  apply (@padded_segment_decodes (u "eyJpZCI6NDJ9_-A")).
  - vm_compute. repeat constructor.
  - vm_compute. discriminate.
Defined.

(** ** Request body: the options *)

Section BodyOptions.

Context {rt : PyRuntime}.
Variables (self : ZAIClient) (env : BodyEnv) (messages : pyobj).
Variables (model chat_id : str).

(** The fields of the body that come from the arguments. *)
Lemma build_body_fields (kwargs : dict) :
  exists body,
    _build_request_body self env messages model chat_id kwargs
    = Ok (PDict body) /\
    dict_lookup body (u "stream")
    = Some (dict_get kwargs (u "stream") (PBool true)) /\
    dict_lookup body (u "params")
    = Some (PDict (Chat.supplied kwargs (u "temperature")
                     ++ Chat.supplied kwargs (u "max_tokens"))) /\
    dict_lookup body (u "tools")
    = (if is_thinking_model model then None
       else dict_lookup kwargs (u "tools")) /\
    dict_lookup body (u "messages") = Some messages /\
    dict_lookup body (u "chat_id") = Some (PStr chat_id) /\
    dict_lookup body (u "id") = Some (PStr (fresh_uuid env)).
Proof.
  unfold _build_request_body, dict_contains, dict_item, Chat.supplied.
  generalize (mapping_get MODEL_MAPPING model (u "0727-360B-API")) as mid.
  generalize (is_thinking_model model) as thinking.
  generalize (is_search_model model) as search.
  generalize (contains model (u "4.5")) as v45.
  generalize (dict_get kwargs (u "stream") (PBool true)) as stream.
  intros stream v45 search thinking mid.
  destruct (dict_lookup kwargs (u "temperature")) as [t|];
    destruct (dict_lookup kwargs (u "max_tokens")) as [m|];
    destruct (dict_lookup kwargs (u "tools")) as [o|];
    destruct thinking;
    (match goal with
     | |- exists body, ?X = _ /\ _ =>
       let r := eval vm_compute in X in
       replace X with r by (vm_compute; reflexivity)
     end);
    (eexists; split; [reflexivity|]);
    vm_compute; repeat split.
Qed.

(** X11.  The optional fields of the body hold exactly what was
    supplied: [params] holds the temperature and the token limit that
    the options give, each with its value and in this order, and no
    other entry; [tools] is the supplied list for a model that is not a
    thinking model; [stream] is the supplied flag, [True] when none is
    given. *)
Theorem body_holds_supplied_options (kwargs : dict) :
  exists body,
    _build_request_body self env messages model chat_id kwargs
    = Ok (PDict body) /\
    dict_lookup body (u "stream")
    = Some (dict_get kwargs (u "stream") (PBool true)) /\
    dict_lookup body (u "params")
    = Some (PDict (Chat.supplied kwargs (u "temperature")
                     ++ Chat.supplied kwargs (u "max_tokens"))) /\
    (is_thinking_model model = false ->
     dict_lookup body (u "tools") = dict_lookup kwargs (u "tools")).
Proof.
  destruct (build_body_fields kwargs) as (body & Hb & Hs & Hp & Ht & _).
  exists body. repeat split; try assumption.
  intros Hth. now rewrite Hth in Ht.
Qed.

(** X12.  The body depends on the options only through [stream],
    [temperature], [max_tokens] and [tools]: two option dictionaries that
    agree on these four keys give the same body, so no other option
    reaches the request. *)
Theorem body_reads_only_its_options (kwargs kwargs' : dict) :
  (forall k, In k Chat.body_options ->
             dict_lookup kwargs k = dict_lookup kwargs' k) ->
  _build_request_body self env messages model chat_id kwargs
  = _build_request_body self env messages model chat_id kwargs'.
Proof.
  intros H.
  assert (H1 := H (u "stream")). assert (H2 := H (u "temperature")).
  assert (H3 := H (u "max_tokens")). assert (H4 := H (u "tools")).
  unfold _build_request_body, dict_contains, dict_item, dict_get.
  rewrite H1, H2, H3, H4; [reflexivity| | | |];
    unfold Chat.body_options; cbn [In]; tauto.
Qed.

End BodyOptions.

Lemma body_holds_supplied_options_witness :
  exists body,
    @_build_request_body
      Sample.ascii_runtime Sample.client Sample.env (PList [])
      (u "GLM-4.6") (u "chat-1")
      [(u "max_tokens", PInt 64); (u "tools", PList [PNone]);
       (u "temperature", PFloat (u "0.5"))]
    = Ok (PDict body) /\
    dict_lookup body (u "stream") = Some (PBool true) /\
    dict_lookup body (u "params")
    = Some (PDict [(u "temperature", PFloat (u "0.5"));
                   (u "max_tokens", PInt 64)]) /\
    (@is_thinking_model Sample.ascii_runtime (u "GLM-4.6") = false ->
     dict_lookup body (u "tools") = Some (PList [PNone])).
Proof.
  exact (@body_holds_supplied_options
           Sample.ascii_runtime Sample.client Sample.env (PList [])
           (u "GLM-4.6") (u "chat-1")
           [(u "max_tokens", PInt 64); (u "tools", PList [PNone]);
            (u "temperature", PFloat (u "0.5"))]).
Defined.

Lemma body_reads_only_its_options_witness :
  @_build_request_body
    Sample.ascii_runtime Sample.client Sample.env (PList [])
    (u "GLM-4.6") (u "chat-1")
    [(u "top_p", PInt 1); (u "temperature", PInt 1)]
  = @_build_request_body
      Sample.ascii_runtime Sample.client Sample.env (PList [])
      (u "GLM-4.6") (u "chat-1")
      [(u "temperature", PInt 1); (u "seed", PInt 7)].
Proof.
  apply (@body_reads_only_its_options
           Sample.ascii_runtime Sample.client Sample.env (PList [])
           (u "GLM-4.6") (u "chat-1")).
  intros k Hk. cbn [Chat.body_options In] in Hk.
  destruct Hk as [<-|[<-|[<-|[<-|[]]]]]; vm_compute; reflexivity.
Defined.

(** ** Credentials *)

Section Credentials.

Context {rt : PyRuntime}.
Variable exn_text : exn -> str.
Variable requests_get : str -> dict -> exc Chat.AuthResponse.

(** X13.  [get_guest_token] returns a token exactly when the auth
    endpoint answers with status 200 and a JSON object whose [token]
    field is true in a condition; the value returned is that field.  It
    never returns an empty token. *)
Theorem guest_token_success (self : ZAIClient) (value : pyobj) :
  Chat.get_guest_token exn_text requests_get self = Ok value <->
  exists response d,
    requests_get (auth_url self) (Chat.guest_headers self) = Ok response /\
    Chat.auth_status_code response = 200%Z /\
    Chat.auth_json response = Ok (PDict d) /\
    dict_get d (u "token") (PStr []) = value /\
    truthy value = true.
Proof.
  unfold Chat.get_guest_token, Chat.guest_token_body, try_except.
  destruct (requests_get (auth_url self) (Chat.guest_headers self))
    as [response|e]; cbn [bind].
  2:{ split; [discriminate|]. intros (r & d & H & _). discriminate. }
  destruct (Z.eqb (Chat.auth_status_code response) 200) eqn:Es.
  2:{ cbn [bind]. split; [discriminate|].
      intros (r & d & H & Hs & _). apply Ok_inj in H. subst r.
      apply Z.eqb_neq in Es. contradiction. }
  apply Z.eqb_eq in Es.
  destruct (Chat.auth_json response) as [data|e] eqn:Ej; cbn [bind].
  2:{ split; [discriminate|].
      intros (r & d & H & _ & Hj & _). apply Ok_inj in H. subst r.
      congruence. }
  destruct data as [| | | | | |d]; cbn [py_get bind];
    try (split; [discriminate|];
         intros (r & d & H & _ & Hj & _); apply Ok_inj in H; subst r;
         congruence).
  destruct (truthy (dict_get d (u "token") (PStr []))) eqn:Et; cbn [bind].
  - split.
    + intros H. apply Ok_inj in H. subst value.
      exists response, d. repeat split; assumption.
    + intros (r & d' & H & _ & Hj & Hv & _). apply Ok_inj in H. subst r.
      rewrite Ej in Hj. apply Ok_inj in Hj. injection Hj as <-.
      now rewrite Hv.
  - split; [discriminate|].
    intros (r & d' & H & _ & Hj & Hv & Htr). apply Ok_inj in H. subst r.
    rewrite Ej in Hj. apply Ok_inj in Hj. injection Hj as <-.
    rewrite Hv in Et. congruence.
Qed.

(** X14.  Every failure of [get_guest_token] is an [Exception] whose
    message starts with the text for a guest-token error; a status other
    than 200 gives, after this text, the text for a failed request and
    the status. *)
Theorem guest_token_failure (self : ZAIClient) :
  (forall e, Chat.get_guest_token exn_text requests_get self = Raise e ->
             exists text, e = Exception_ (Chat.msg_guest_error ++ text)) /\
  (forall response,
      requests_get (auth_url self) (Chat.guest_headers self) = Ok response ->
      Chat.auth_status_code response <> 200%Z ->
      Chat.get_guest_token exn_text requests_get self
      = Raise (Exception_
                 (Chat.msg_guest_error ++ Chat.msg_guest_failed
                    ++ str_of_int (Chat.auth_status_code response)))).
Proof.
  unfold Chat.get_guest_token, try_except. split.
  - intros e. destruct (Chat.guest_token_body requests_get self)
      as [v|e']; [discriminate|].
    intros [= <-]. eexists. reflexivity.
  - intros response Hr Hs. unfold Chat.guest_token_body.
    rewrite Hr. cbn [bind]. apply Z.eqb_neq in Hs. rewrite Hs.
    reflexivity.
Qed.

End Credentials.

Lemma guest_token_success_witness :
  exists response d,
    Sample2.auth_answer
      {| Chat.auth_status_code := 200;
         Chat.auth_json := Ok (PDict [(u "token", PStr (u "a.b.c"))]) |}
      (auth_url Sample.client) (Chat.guest_headers Sample.client)
    = Ok response /\
    Chat.auth_status_code response = 200%Z /\
    Chat.auth_json response = Ok (PDict d) /\
    dict_get d (u "token") (PStr []) = PStr (u "a.b.c") /\
    @truthy Sample.ascii_runtime (PStr (u "a.b.c")) = true.
Proof.
  apply (proj1 (@guest_token_success
                  Sample.ascii_runtime Sample2.no_text
                  (Sample2.auth_answer
                     {| Chat.auth_status_code := 200;
                        Chat.auth_json :=
                          Ok (PDict [(u "token", PStr (u "a.b.c"))]) |})
                  Sample.client (PStr (u "a.b.c")))).
  reflexivity.
Defined.

Lemma guest_token_failure_witness :
  @Chat.get_guest_token
    Sample.ascii_runtime Sample2.no_text
    (Sample2.auth_answer
       {| Chat.auth_status_code := 503; Chat.auth_json := Ok PNone |})
    Sample.client
  = Raise (Exception_
             (Chat.msg_guest_error ++ Chat.msg_guest_failed ++ u "503")).
Proof.
  apply (proj2 (@guest_token_failure
                  Sample.ascii_runtime Sample2.no_text
                  (Sample2.auth_answer
                     {| Chat.auth_status_code := 503;
                        Chat.auth_json := Ok PNone |})
                  Sample.client)
               {| Chat.auth_status_code := 503; Chat.auth_json := Ok PNone |});
    [reflexivity|discriminate].
Defined.

(** ** [chat] *)

Lemma find_user_skip (others rest : list pyobj) :
  Forall Chat.is_other_message others ->
  Chat.find_user (others ++ rest) = Chat.find_user rest.
Proof.
  induction 1 as [|msg others (d & -> & Hrole) _ IH]; [reflexivity|].
  cbn [app Chat.find_user py_get bind]. rewrite Hrole. exact IH.
Qed.

(** The message the loop of [chat] stops at. *)
Lemma find_user_last (before after : list pyobj) (msg content : pyobj) :
  Chat.is_user_message msg content ->
  Forall Chat.is_other_message after ->
  Chat.find_user (rev (before ++ msg :: after)) = Ok content.
Proof.
  intros (d & -> & Hrole & ->) Hafter.
  rewrite rev_app_distr. cbn [rev]. rewrite <- app_assoc.
  rewrite find_user_skip by (apply Forall_rev; exact Hafter).
  cbn [app Chat.find_user py_get bind]. rewrite dict_get_lookup, Hrole.
  cbn [py_eq_str]. now rewrite str_eqb_refl.
Qed.

Lemma find_user_none (messages : list pyobj) :
  Forall Chat.is_other_message messages ->
  Chat.find_user (rev messages) = Ok (PStr []).
Proof.
  intros H. rewrite <- (app_nil_r (rev messages)).
  rewrite find_user_skip by (apply Forall_rev; exact H). reflexivity.
Qed.

Lemma find_user_bad (before after : list pyobj) (bad : pyobj) :
  (forall d, bad <> PDict d) ->
  Forall Chat.is_other_message after ->
  Chat.find_user (rev (before ++ bad :: after)) = Raise AttributeError.
Proof.
  intros Hbad Hafter.
  rewrite rev_app_distr. cbn [rev]. rewrite <- app_assoc.
  rewrite find_user_skip by (apply Forall_rev; exact Hafter).
  cbn [app Chat.find_user].
  destruct bad; try reflexivity. exfalso. eapply Hbad. reflexivity.
Qed.

Section ChatProperties.

Context {rt : PyRuntime}.
Variable exn_text : exn -> str.
Variable requests_get : str -> dict -> exc Chat.AuthResponse.
Variable requests_post : str -> dict -> dict -> exc Response.
Variables (self : ZAIClient) (env : Chat.ChatEnv).
Variables (model : str) (kwargs : dict).

(** What a request that [chat] has built is made of. *)
Lemma chat_request_inv (stream : bool) (messages : list pyobj) (url : str)
      (headers body : dict) :
  Chat.chat_request exn_text requests_get self env messages model stream
                    kwargs
  = Ok (url, headers, body) ->
  exists token user_id last signature query,
    Chat._get_token exn_text requests_get self = Ok token /\
    Chat.user_id_of self token = Ok user_id /\
    Chat.find_user (rev messages) = Ok last /\
    _generate_signature self (py_str last) (Chat.request_uuid env)
                        (Chat.time_ms env) user_id
    = Ok signature /\
    headers = Chat._build_headers self token (Chat.chat_uuid env) signature /\
    _build_request_body self (Chat.body_env env) (PList messages) model
                        (Chat.chat_uuid env)
                        ((u "stream", PBool stream) :: kwargs)
    = Ok (PDict body) /\
    Urllib.urlencode
      (Chat.query_params self token (Chat.chat_uuid env)
                         (Chat.request_uuid env) user_id (Chat.time_ms env))
    = Ok query /\
    url = api_url self ++ u "?" ++ query.
Proof.
  unfold Chat.chat_request.
  destruct (Chat._get_token exn_text requests_get self) as [token|e] eqn:Et;
    cbn [bind]; [|discriminate].
  destruct (Chat.user_id_of self token) as [user_id|e] eqn:Eu;
    cbn [bind]; [|discriminate].
  destruct (Chat.find_user (rev messages)) as [last|e] eqn:El;
    cbn [bind]; [|discriminate].
  destruct (_generate_signature self (py_str last) (Chat.request_uuid env)
                                (Chat.time_ms env) user_id)
    as [signature|e] eqn:Es; cbn [bind]; [|discriminate].
  destruct (dict_contains kwargs (u "chat_id")); cbn [bind]; [discriminate|].
  destruct (_build_request_body self (Chat.body_env env) (PList messages)
                                model (Chat.chat_uuid env)
                                ((u "stream", PBool stream) :: kwargs))
    as [[| | | | | |b]|e] eqn:Eb; cbn [bind]; try discriminate.
  destruct (Urllib.urlencode _) as [query|e] eqn:Eq; cbn [bind];
    [|discriminate].
  intros H. apply Ok_inj in H. injection H as <- <- <-.
  exists token, user_id, last, signature, query.
  repeat split; assumption || reflexivity.
Qed.

(** X15.  The signature [chat] puts in the [X-Signature] header is the
    signature of the content of the last message of the role "user"
    (whatever follows it of other roles), of the request id and the
    timestamp of this call and of the identity of the token; without a
    message of the role "user" the empty text is signed. *)
Theorem chat_signs_last_user_message
        (stream : bool) (messages : list pyobj) (url : str) (headers body : dict) :
  Chat.chat_request exn_text requests_get self env messages model stream
                    kwargs
  = Ok (url, headers, body) ->
  exists token user_id signature,
    Chat._get_token exn_text requests_get self = Ok token /\
    Chat.user_id_of self token = Ok user_id /\
    dict_lookup headers (u "X-Signature") = Some (PStr signature) /\
    (forall before msg content after,
        messages = before ++ msg :: after ->
        Chat.is_user_message msg content ->
        Forall Chat.is_other_message after ->
        _generate_signature self (py_str content) (Chat.request_uuid env)
                            (Chat.time_ms env) user_id
        = Ok signature) /\
    (Forall Chat.is_other_message messages ->
     _generate_signature self [] (Chat.request_uuid env)
                         (Chat.time_ms env) user_id
     = Ok signature).
Proof.
  intros H.
  apply chat_request_inv in H
    as (token & user_id & last & signature & query
        & Ht & Hu & Hl & Hs & -> & _).
  exists token, user_id, signature.
  split; [exact Ht|]. split; [exact Hu|]. split; [reflexivity|]. split.
  - intros before msg content after -> Hm Ha.
    rewrite (find_user_last before Hm Ha) in Hl.
    apply Ok_inj in Hl. now subst last.
  - intros Hnone. rewrite (find_user_none Hnone) in Hl.
    apply Ok_inj in Hl. now subst last.
Qed.

(** X16.  One request carries one session id, one request id and one
    timestamp: the [chat_id] of the body, the [Referer] header and the
    [current_url] and [pathname] parameters hold the chat id of the
    call; the query string holds the request id, the timestamp and the
    identity that were signed; the bearer token of the header is the
    token of the query; the [id] of the body is the UUID generated for
    the body, not the chat id. *)
Theorem chat_request_is_consistent
        (stream : bool) (messages : list pyobj) (url : str) (headers body : dict) :
  Chat.chat_request exn_text requests_get self env messages model stream
                    kwargs
  = Ok (url, headers, body) ->
  exists token user_id last signature query,
    _generate_signature self (py_str last) (Chat.request_uuid env)
                        (Chat.time_ms env) user_id
    = Ok signature /\
    dict_lookup headers (u "X-Signature") = Some (PStr signature) /\
    dict_lookup headers (u "Authorization")
    = Some (PStr (u "Bearer " ++ py_str token)) /\
    dict_lookup headers (u "Referer")
    = Some (PStr (base_url self ++ u "/c/" ++ Chat.chat_uuid env)) /\
    url = api_url self ++ u "?" ++ query /\
    Urllib.urlencode
      [ (u "timestamp", PInt (Chat.time_ms env));
        (u "requestId", PStr (Chat.request_uuid env));
        (u "user_id", PStr user_id);
        (u "token", token);
        (u "current_url",
         PStr (base_url self ++ u "/c/" ++ Chat.chat_uuid env));
        (u "pathname", PStr (u "/c/" ++ Chat.chat_uuid env));
        (u "signature_timestamp", PInt (Chat.time_ms env)) ]
    = Ok query /\
    dict_lookup body (u "chat_id") = Some (PStr (Chat.chat_uuid env)) /\
    dict_lookup body (u "id")
    = Some (PStr (fresh_uuid (Chat.body_env env))) /\
    dict_lookup body (u "messages") = Some (PList messages) /\
    dict_lookup body (u "stream") = Some (PBool stream).
Proof.
  intros H.
  apply chat_request_inv in H
    as (token & user_id & last & signature & query
        & Ht & Hu & Hl & Hs & -> & Hb & Hq & ->).
  destruct (build_body_fields self (Chat.body_env env) (PList messages)
                              model (Chat.chat_uuid env)
                              ((u "stream", PBool stream) :: kwargs))
    as (body' & Hb' & Hstream & _ & _ & Hm & Hc & Hi).
  rewrite Hb in Hb'. apply Ok_inj in Hb'. injection Hb' as <-.
  exists token, user_id, last, signature, query.
  repeat split; try assumption; reflexivity.
Qed.

(** X17.  [chat] never asks the transport for anything but a stream, in
    either mode: over a transport that refuses every body whose [stream]
    field is not [True] it returns what it returns over the transport
    itself. *)
Theorem chat_only_sends_stream_requests
        (stream : bool) (messages : list pyobj) :
  Chat.chat exn_text requests_get (Chat.only_streams requests_post)
            self env messages model stream kwargs
  = Chat.chat exn_text requests_get requests_post
              self env messages model stream kwargs.
Proof.
  unfold Chat.chat.
  destruct (Chat.chat_request exn_text requests_get self env messages model
                              stream kwargs)
    as [[[url headers] body]|e] eqn:E; cbn [bind]; [|reflexivity].
  destruct stream.
  - apply chat_request_inv in E
      as (token & user_id & last & signature & query
          & _ & _ & _ & _ & _ & Hb & _).
    destruct (build_body_fields self (Chat.body_env env) (PList messages)
                                model (Chat.chat_uuid env)
                                ((u "stream", PBool true) :: kwargs))
      as (body' & Hb' & Hstream & _).
    rewrite Hb in Hb'. apply Ok_inj in Hb'. injection Hb' as <-.
    unfold _stream_request, Chat.only_streams. rewrite Hstream.
    reflexivity.
  - unfold _non_stream_request, _stream_request, Chat.only_streams.
    rewrite dict_lookup_set_same. reflexivity.
Qed.

(** X18.  Without a credential [chat] fails before any request is sent,
    whatever the transport: a client with no token (or the empty token)
    and without anonymous mode raises the exception for a missing
    token; in anonymous mode, when the auth endpoint cannot be reached,
    it raises the guest-token error that wraps the failure. *)
Theorem chat_fails_without_credential
        (stream : bool) (messages : list pyobj) :
  token self = None \/ token self = Some [] ->
  (anonymous self = false ->
   Chat.chat exn_text requests_get requests_post
             self env messages model stream kwargs
   = Raise (Exception_ Chat.msg_no_token)) /\
  (anonymous self = true ->
   forall e,
     requests_get (auth_url self) (Chat.guest_headers self) = Raise e ->
     Chat.chat exn_text requests_get requests_post
               self env messages model stream kwargs
     = Raise (Exception_ (Chat.msg_guest_error ++ Chat.exn_str exn_text e))).
Proof.
  intros Htok. unfold Chat.chat, Chat.chat_request, Chat._get_token.
  split.
  - intros Ha. destruct Htok as [-> | ->]; rewrite Ha; reflexivity.
  - intros Ha e He.
    unfold Chat.get_guest_token, Chat.guest_token_body, try_except.
    destruct Htok as [-> | ->]; rewrite Ha, He; reflexivity.
Qed.

(** X19.  With a token that is not empty [chat] does not contact the
    auth endpoint: its result is the same for every auth endpoint. *)
Theorem chat_with_token_skips_auth
        (stream : bool) (messages : list pyobj) (t : str)
        (exn_text' : exn -> str)
        (requests_get' : str -> dict -> exc Chat.AuthResponse) :
  token self = Some t -> t <> [] ->
  Chat.chat exn_text requests_get requests_post
            self env messages model stream kwargs
  = Chat.chat exn_text' requests_get' requests_post
              self env messages model stream kwargs.
Proof.
  intros Ht Hne. unfold Chat.chat, Chat.chat_request, Chat._get_token.
  rewrite Ht. destruct t as [|c t]; [contradiction|]. reflexivity.
Qed.

(** X20.  A message that is not a dictionary, met before any message of
    the role "user" when the messages are read from the last one,
    makes [chat] raise [AttributeError] before any request is sent. *)
Theorem chat_rejects_message_without_get
        (stream : bool) (before after : list pyobj) (bad token : pyobj) :
  Chat._get_token exn_text requests_get self = Ok token ->
  (forall d, bad <> PDict d) ->
  Forall Chat.is_other_message after ->
  Chat.chat exn_text requests_get requests_post
            self env (before ++ bad :: after) model stream kwargs
  = Raise AttributeError.
Proof.
  intros Ht Hbad Hafter. unfold Chat.chat, Chat.chat_request.
  rewrite Ht. cbn [bind].
  assert (Hu : exists user_id, Chat.user_id_of self token = Ok user_id).
  { unfold Chat.user_id_of. destruct token; try (eexists; reflexivity).
    apply extract_total. }
  destruct Hu as [user_id ->]. cbn [bind].
  rewrite (find_user_bad before Hbad Hafter). reflexivity.
Qed.

End ChatProperties.

(** ** The query string *)








Section QueryString.

Context {rt : PyRuntime}.




End QueryString.

(** ** Evaluation of [chat] *)

Lemma chat_signs_last_user_message_witness :
  exists token user_id signature,
    @Chat._get_token Sample.ascii_runtime Sample2.no_text Sample2.auth_down
                     Sample2.client_with_token
    = Ok token /\
    @Chat.user_id_of Sample.ascii_runtime Sample2.client_with_token token
    = Ok user_id /\
    dict_lookup Sample2.request_headers (u "X-Signature")
    = Some (PStr signature) /\
    (forall before msg content after,
        Sample2.messages = before ++ msg :: after ->
        Chat.is_user_message msg content ->
        Forall Chat.is_other_message after ->
        _generate_signature Sample2.client_with_token
                            (@py_str Sample.ascii_runtime content)
                            (Chat.request_uuid Sample2.chat_env)
                            (Chat.time_ms Sample2.chat_env) user_id
        = Ok signature) /\
    (Forall Chat.is_other_message Sample2.messages ->
     _generate_signature Sample2.client_with_token []
                         (Chat.request_uuid Sample2.chat_env)
                         (Chat.time_ms Sample2.chat_env) user_id
     = Ok signature).
Proof.
  apply (@chat_signs_last_user_message
           Sample.ascii_runtime Sample2.no_text Sample2.auth_down
           Sample2.client_with_token Sample2.chat_env (u "GLM-4.6")
           [(u "temperature", PInt 1)] true Sample2.messages
           Sample2.request_url Sample2.request_headers Sample2.request_body).
  vm_compute. reflexivity.
Defined.

(** The signature of the sample request is the signature of its last
    user message under the identity "42" of the token. *)
Example sample_request_signature :
  dict_lookup Sample2.request_headers (u "X-Signature")
  = match _generate_signature Sample2.client_with_token
                              (u "what is 1 + 1?")
                              (Chat.request_uuid Sample2.chat_env)
                              (Chat.time_ms Sample2.chat_env) (u "42")
    with
    | Ok signature => Some (PStr signature)
    | Raise _ => None
    end.
Proof. vm_compute. reflexivity. Qed.

Lemma chat_request_is_consistent_witness :
  dict_lookup Sample2.request_body (u "chat_id")
  = Some (PStr (Chat.chat_uuid Sample2.chat_env)) /\
  dict_lookup Sample2.request_headers (u "Referer")
  = Some (PStr (base_url Sample2.client_with_token ++ u "/c/"
                  ++ Chat.chat_uuid Sample2.chat_env)) /\
  dict_lookup Sample2.request_body (u "id")
  = Some (PStr (fresh_uuid (Chat.body_env Sample2.chat_env))).
Proof.
  destruct (@chat_request_is_consistent
              Sample.ascii_runtime Sample2.no_text Sample2.auth_down
              Sample2.client_with_token Sample2.chat_env (u "GLM-4.6")
              [(u "temperature", PInt 1)] true Sample2.messages
              Sample2.request_url Sample2.request_headers
              Sample2.request_body)
    as (token & user_id & last & signature & query
        & _ & _ & _ & Href & _ & _ & Hc & Hi & _).
  - vm_compute. reflexivity.
  - repeat split; assumption.
Defined.

Lemma chat_fails_without_credential_witness :
  @Chat.chat Sample.ascii_runtime Sample2.no_text Sample2.auth_down
             Sample2.post_down Sample.client Sample2.chat_env
             Sample2.messages (u "GLM-4.6") false []
  = Raise (Exception_ (Chat.msg_guest_error ++ u "connection refused")).
Proof.
  apply (proj2 (@chat_fails_without_credential
                  Sample.ascii_runtime Sample2.no_text Sample2.auth_down
                  Sample2.post_down Sample.client Sample2.chat_env
                  (u "GLM-4.6") [] false Sample2.messages
                  (or_introl eq_refl))
               eq_refl (Exception_ (u "connection refused")) eq_refl).
Defined.

Lemma chat_with_token_skips_auth_witness :
  @Chat.chat Sample.ascii_runtime Sample2.no_text Sample2.auth_down
             (Sample.answer (Sample.ok_response Sample.scenario_lines))
             Sample2.client_with_token Sample2.chat_env
             Sample2.messages (u "GLM-4.6") false []
  = @Chat.chat Sample.ascii_runtime Sample2.no_text
               (Sample2.auth_answer
                  {| Chat.auth_status_code := 200;
                     Chat.auth_json := Ok (PDict []) |})
               (Sample.answer (Sample.ok_response Sample.scenario_lines))
               Sample2.client_with_token Sample2.chat_env
               Sample2.messages (u "GLM-4.6") false [].
Proof.
  apply (@chat_with_token_skips_auth
           Sample.ascii_runtime Sample2.no_text Sample2.auth_down
           (Sample.answer (Sample.ok_response Sample.scenario_lines))
           Sample2.client_with_token Sample2.chat_env (u "GLM-4.6") []
           false Sample2.messages (u "h.eyJpZCI6NDJ9.s") Sample2.no_text).
  - reflexivity.
  - discriminate.
Defined.

(** The sample conversation, aggregated over the scenario's stream. *)
Example sample_chat_result :
  @Chat.chat Sample.ascii_runtime Sample2.no_text Sample2.auth_down
             (Sample.answer (Sample.ok_response Sample.scenario_lines))
             Sample2.client_with_token Sample2.chat_env
             Sample2.messages (u "GLM-4.6") false []
  = Ok (inr (PDict [(u "content", PStr (u "Hi there"));
                    (u "reasoning_content", PStr (u "A"))])).
Proof. vm_compute. reflexivity. Qed.

Lemma chat_rejects_message_without_get_witness :
  @Chat.chat Sample.ascii_runtime Sample2.no_text Sample2.auth_down
             Sample2.post_down Sample2.client_with_token Sample2.chat_env
             ([Sample2.user (u "hi")] ++ PStr (u "plain text")
                :: [Sample2.assistant (u "ok")])
             (u "GLM-4.6") true []
  = Raise AttributeError.
Proof.
  apply (@chat_rejects_message_without_get
           Sample.ascii_runtime Sample2.no_text Sample2.auth_down
           Sample2.post_down Sample2.client_with_token Sample2.chat_env
           (u "GLM-4.6") [] true [Sample2.user (u "hi")]
           [Sample2.assistant (u "ok")] (PStr (u "plain text"))
           (PStr (u "h.eyJpZCI6NDJ9.s"))).
  - reflexivity.
  - discriminate.
  - constructor; [|constructor].
    eexists. split; [reflexivity|]. vm_compute. reflexivity.
Defined.


(** The URL of the sample request. *)
Example sample_request_url :
  Sample2.request_url
  = u "https://chat.z.ai/api/chat/completions?timestamp=1700000000123&requestId=22222222-2222-4222-8222-222222222222&user_id=42&token=h.eyJpZCI6NDJ9.s&current_url=https%3A%2F%2Fchat.z.ai%2Fc%2F11111111-1111-4111-8111-111111111111&pathname=%2Fc%2F11111111-1111-4111-8111-111111111111&signature_timestamp=1700000000123".
Proof. vm_compute. reflexivity. Qed.

(** ** The aggregated texts are trimmed *)

Lemma lstrip_head (s : str) (c : N) (rest : str) :
  lstrip s = c :: rest -> isspace c = false.
Proof.
  induction s as [|d s IH]; cbn [lstrip]; [discriminate|].
  destruct (isspace d) eqn:E; [exact IH|].
  intros [= <- _]. exact E.
Qed.

Lemma lstrip_app_nonspace (s : str) (c : N) :
  isspace c = false -> lstrip (s ++ [c]) = lstrip s ++ [c].
Proof.
  intros Hc. induction s as [|d s IH]; cbn [app lstrip].
  - now rewrite Hc.
  - destruct (isspace d); [exact IH|reflexivity].
Qed.

Lemma rstrip_cons_nonspace (c : N) (s : str) :
  isspace c = false -> rstrip (c :: s) = c :: rstrip s.
Proof.
  intros Hc. unfold rstrip. cbn [rev].
  rewrite (@lstrip_app_nonspace (rev s) c Hc), rev_app_distr. reflexivity.
Qed.

(** What [strip] returns neither starts nor ends with white space. *)
Lemma strip_trimmed (s : str) :
  (forall c rest, strip s = c :: rest -> isspace c = false) /\
  (forall c front, strip s = front ++ [c] -> isspace c = false).
Proof.
  unfold strip. split.
  - intros c rest. destruct (lstrip s) as [|d t] eqn:E; [discriminate|].
    pose proof (@lstrip_head s d t E) as Hd.
    rewrite (@rstrip_cons_nonspace d t Hd). intros [= <- _]. exact Hd.
  - intros c front H. unfold rstrip in H.
    apply (f_equal (@rev N)) in H.
    rewrite rev_involutive, rev_app_distr in H. cbn [rev app] in H.
    exact (@lstrip_head _ _ _ H).
Qed.

(** X22.  The texts of an aggregated result are trimmed: the content,
    and the reasoning when there is one, neither start nor end with a
    white-space character. *)
Theorem aggregated_texts_are_trimmed
        (post : str -> dict -> dict -> exc Response) (self : ZAIClient)
        (url : str) (headers body : dict) (result : pyobj) :
  _non_stream_request post self url headers body = Ok result ->
  exists content reasoning,
    result = PDict [(u "content", PStr content);
                    (u "reasoning_content", reasoning)] /\
    (forall c rest, content = c :: rest -> isspace c = false) /\
    (forall c front, content = front ++ [c] -> isspace c = false) /\
    (reasoning = PNone \/
     exists text,
       reasoning = PStr text /\
       (forall c rest, text = c :: rest -> isspace c = false) /\
       (forall c front, text = front ++ [c] -> isspace c = false)).
Proof.
  unfold _non_stream_request.
  destruct (raised _); [discriminate|].
  intros H. apply Ok_inj in H. subst result.
  destruct (fold_left fold_line _ ([], [])) as [full reasoning].
  unfold aggregated.
  destruct (strip_trimmed full) as [Hf Hl].
  eexists _, _. split; [reflexivity|]. split; [exact Hf|].
  split; [exact Hl|].
  destruct reasoning as [|c r]; [now left|]. right.
  destruct (strip_trimmed (c :: r)) as [Hf' Hl'].
  eexists. split; [reflexivity|]. split; assumption.
Qed.

Lemma aggregated_texts_are_trimmed_witness :
  exists content reasoning,
    PDict [(u "content", PStr (u "Hi there"));
           (u "reasoning_content", PStr (u "A"))]
    = PDict [(u "content", PStr content);
             (u "reasoning_content", reasoning)] /\
    (forall c rest, content = c :: rest -> isspace c = false) /\
    (forall c front, content = front ++ [c] -> isspace c = false) /\
    (reasoning = PNone \/
     exists text,
       reasoning = PStr text /\
       (forall c rest, text = c :: rest -> isspace c = false) /\
       (forall c front, text = front ++ [c] -> isspace c = false)).
Proof.
  apply (@aggregated_texts_are_trimmed
           (Sample.answer (Sample.ok_response Sample.scenario_lines))
           Sample.client [] [] []).
  vm_compute. reflexivity.
Defined.
